(** * stimapp: the natural-language-to-SQL pipeline of [stimapp.py]

    A shallow embedding of [src/stimapp.py]: Python strings and the string
    methods the program uses, the seeded demo database, the call to the
    generation service with its post-processing, and the Streamlit script
    [main] as a state-and-exception computation over an explicit world. *)

From Stdlib Require Import String Ascii.
From Stdlib Require Import List NArith ZArith QArith Lia Bool.
From Equations Require Import Equations.
Import ListNotations.

Set Implicit Arguments.
Open Scope nat_scope.

(** ** Python [str] values *)

Module PyStr.

(** A Python [str] is a sequence of Unicode code points. *)
Definition codepoint := N.
Definition str := list codepoint.

(** An ASCII literal of the source, as a [str]. *)
Definition lit (s : string) : str := map N_of_ascii (list_ascii_of_string s).
Arguments lit : simpl never.

(** [str.isspace] on one code point: the table of [_PyUnicode_IsWhitespace],
    which [str.strip()] without argument uses. *)
Definition isspace (c : codepoint) : bool :=
  ((9 <=? c) && (c <=? 13) || (28 <=? c) && (c <=? 32)
   || (c =? 133) || (c =? 160) || (c =? 5760)
   || (8192 <=? c) && (c <=? 8202)
   || (c =? 8232) || (c =? 8233) || (c =? 8239) || (c =? 8287)
   || (c =? 12288))%N.

(** [s.lstrip()]. *)
Fixpoint lstrip (s : str) : str :=
  match s with
  | [] => []
  | c :: t => if isspace c then lstrip t else s
  end.

(** [s.rstrip()]. *)
Definition rstrip (s : str) : str := rev (lstrip (rev s)).

(** [s.strip()]: the slice between the first and the last code point that
    is not whitespace. *)
Definition strip (s : str) : str := rstrip (lstrip s).

(** [s.startswith(p)]. *)
Fixpoint startswith (p s : str) : bool :=
  match p, s with
  | [], _ => true
  | _ :: _, [] => false
  | a :: p', b :: s' => (a =? b)%N && startswith p' s'
  end.

(** [p in s]. *)
Fixpoint contains (p s : str) : bool :=
  startswith p s ||
  match s with
  | [] => false
  | _ :: t => contains p t
  end.

(** [s.replace(old, new)]: the occurrences of [old] are found from left to
    right and do not overlap; the text after a replaced occurrence is
    scanned from the end of that occurrence.  With an empty [old], [new] is
    put before every code point and at the end. *)
Equations? replace (old new s : str) : str by wf (length s) lt :=
  replace [] new s := new ++ flat_map (fun c => c :: new) s;
  replace (o :: old') new [] := [];
  replace (o :: old') new (c :: t) with startswith (o :: old') (c :: t) => {
    | true := new ++ replace (o :: old') new (skipn (length old') t);
    | false := c :: replace (o :: old') new t }.
Proof. rewrite length_skipn. lia. Qed.

(** The number of copies of [a] that [s] starts with. *)
Fixpoint leading (a : codepoint) (s : str) : nat :=
  match s with
  | [] => 0
  | c :: t => if (c =? a)%N then S (leading a t) else 0
  end.

(** [s] occurs in [t] as a contiguous slice. *)
Definition occurs (p s : str) : Prop :=
  exists pre post, s = pre ++ p ++ post.

(** Neither end of [s] is a whitespace code point. *)
Definition trimmed (s : str) : Prop :=
  (forall c t, s = c :: t -> isspace c = false) /\
  (forall c t, s = t ++ [c] -> isspace c = false).

(** [s] is [t] with some code points deleted. *)
Inductive subseq : str -> str -> Prop :=
| subseq_nil : subseq [] []
| subseq_skip c s t : subseq s t -> subseq s (c :: t)
| subseq_keep c s t : subseq s t -> subseq (c :: s) (c :: t).

(** Truth value of a [str]: the empty string is falsy. *)
Definition truthy (s : str) : bool :=
  match s with [] => false | _ :: _ => true end.

End PyStr.

Import PyStr.

(** ** The post-processing of the service's text ([generate_sql_query],
    the lines after the call) *)

Definition backtick : codepoint := 96%N.
Definition fence : str := lit "```".
Definition fence_sql : str := lit "```sql".

Definition sanitize (content : str) : str :=
  let sql_code := strip content in
  let sql_code := replace fence [] (replace fence_sql [] sql_code) in
  strip sql_code.

(** ** The seeded demo database ([create_demo_db]) *)

Module Demo.

(** Rows of the four tables.  [NUMERIC] and [REAL] literals are kept as the
    exact decimals the [INSERT] statements write. *)
Record work := mk_work
  { work_id : Z; title : str; created_year : Z }.

Record contributor := mk_contributor
  { contributor_id : Z; name : str; is_publisher : bool }.

Record work_contributor := mk_split
  { wc_work_id : Z; wc_contributor_id : Z; share_percentage : Q }.

Record royalty := mk_royalty
  { royalty_id : Z; r_work_id : Z; amount : Q;
    period_start : str; period_end : str }.

Record database := mk_database
  { works : list work;
    contributors : list contributor;
    work_contributors : list work_contributor;
    royalties : list royalty }.

Definition seed_works : list work :=
  [ mk_work 1 (lit "Dancing Queen") 1976;
    mk_work 2 (lit "Mamma Mia") 1975;
    mk_work 3 (lit "Fernando") 1976;
    mk_work 4 (lit "Waterloo") 1974 ].

Definition seed_contributors : list contributor :=
  [ mk_contributor 101 (lit "Benny Andersson") false;
    mk_contributor 102 (lit "Bj" ++ [246%N] ++ lit "rn Ulvaeus") false;
    mk_contributor 103 (lit "Polar Music") true;
    mk_contributor 104 (lit "ABBA Manager") true ].

Definition seed_work_contributors : list work_contributor :=
  [ mk_split 1 101 50.0;
    mk_split 1 102 50.0;
    mk_split 2 101 40.0;
    mk_split 2 102 40.0;
    mk_split 2 103 20.0;
    mk_split 3 101 33.33;
    mk_split 3 102 33.33;
    mk_split 3 103 33.34;
    mk_split 4 101 25.0;
    mk_split 4 102 25.0;
    mk_split 4 103 25.0;
    mk_split 4 104 25.0 ].

Definition seed_royalties : list royalty :=
  [ mk_royalty 1001 1 1500.00 (lit "2022-01-01") (lit "2022-06-30");
    mk_royalty 1002 1 1700.00 (lit "2022-07-01") (lit "2022-12-31");
    mk_royalty 1003 2 2200.00 (lit "2022-01-01") (lit "2022-12-31");
    mk_royalty 1004 3 1800.00 (lit "2022-01-01") (lit "2022-06-30");
    mk_royalty 1005 3 1900.00 (lit "2022-07-01") (lit "2022-12-31");
    mk_royalty 1006 4 3000.00 (lit "2022-01-01") (lit "2022-12-31") ].

(** The store once the [CREATE TABLE] and [INSERT] statements have run. *)
Definition seeded : database :=
  mk_database seed_works seed_contributors seed_work_contributors
    seed_royalties.

(** *** The [CREATE TABLE] statements *)

Record column_decl := mk_col
  { col_name : str; col_type : str; col_primary : bool }.

(** A [FOREIGN KEY(column) REFERENCES table(column)] clause. *)
Record foreign_key := mk_fk
  { fk_column : str; fk_table : str; fk_target : str }.

Record table_decl := mk_table
  { tbl_name : str;
    tbl_columns : list column_decl;
    tbl_foreign : list foreign_key }.

Definition ddl : list table_decl :=
  [ mk_table (lit "works")
      [ mk_col (lit "work_id") (lit "INTEGER") true;
        mk_col (lit "title") (lit "TEXT") false;
        mk_col (lit "created_year") (lit "INTEGER") false ]
      [];
    mk_table (lit "contributors")
      [ mk_col (lit "contributor_id") (lit "INTEGER") true;
        mk_col (lit "name") (lit "TEXT") false;
        mk_col (lit "is_publisher") (lit "BOOLEAN") false ]
      [];
    mk_table (lit "work_contributors")
      [ mk_col (lit "work_id") (lit "INTEGER") false;
        mk_col (lit "contributor_id") (lit "INTEGER") false;
        mk_col (lit "share_percentage") (lit "REAL") false ]
      [ mk_fk (lit "work_id") (lit "works") (lit "work_id");
        mk_fk (lit "contributor_id") (lit "contributors")
          (lit "contributor_id") ];
    mk_table (lit "royalties")
      [ mk_col (lit "royalty_id") (lit "INTEGER") true;
        mk_col (lit "work_id") (lit "INTEGER") false;
        mk_col (lit "amount") (lit "NUMERIC") false;
        mk_col (lit "period_start") (lit "TEXT") false;
        mk_col (lit "period_end") (lit "TEXT") false ]
      [ mk_fk (lit "work_id") (lit "works") (lit "work_id") ] ].

(** The line of a column inside a table block: four spaces, the name, the
    type and the key marker. *)
Definition column_line (c : column_decl) : str :=
  lit "    " ++ col_name c ++ lit " " ++ col_type c ++
  (if col_primary c then lit " PRIMARY KEY" else []).

Fixpoint join (sep : str) (l : list str) : str :=
  match l with
  | [] => []
  | [x] => x
  | x :: rest => x ++ sep ++ join sep rest
  end.

(** A table block: the name, and the column lines between parentheses,
    one per line. *)
Definition table_block (t : table_decl) : str :=
  tbl_name t ++ lit "(
" ++ join (lit ",
") (map column_line (tbl_columns t)) ++ lit "
)".

(** *** Aggregates over the tables *)

Definition sumQ (l : list Q) : Q := fold_left Qplus l 0%Q.

(** A royalty row lies in year [y] when both ends of its period are dates
    of that year ([period_start] and [period_end] are ISO date texts). *)
Definition in_year (y : str) (r : royalty) : bool :=
  startswith y (period_start r) && startswith y (period_end r).

Definition royalties_in (y : str) (d : database) : list royalty :=
  filter (in_year y) (royalties d).

(** [SELECT DISTINCT work_id]. *)
Definition works_with_royalties (y : str) (d : database) : list Z :=
  nodup Z.eq_dec (map r_work_id (royalties_in y d)).

(** [SUM(amount) ... WHERE work_id = w]. *)
Definition total_royalties (y : str) (d : database) (w : Z) : Q :=
  sumQ (map amount
          (filter (fun r => (r_work_id r =? w)%Z) (royalties_in y d))).

(** [SELECT work_id, SUM(amount) ... GROUP BY work_id]. *)
Definition total_royalties_per_work (y : str) (d : database)
  : list (Z * Q) :=
  map (fun w => (w, total_royalties y d w)) (works_with_royalties y d).

(** [SUM(share_percentage) ... WHERE work_id = w]. *)
Definition share_total (d : database) (w : Z) : Q :=
  sumQ (map share_percentage
          (filter (fun r => (wc_work_id r =? w)%Z) (work_contributors d))).

(** Whether [w] is the key of a row of [works]. *)
Definition work_exists (d : database) (w : Z) : bool :=
  existsb (fun r => (work_id r =? w)%Z) (works d).

End Demo.

(** ** Query results *)

Inductive dtype := Int64 | Float64 | Object.

Inductive cell :=
| CInt (z : Z)
| CReal (q : Q)
| CText (s : str)
| CNull.

Record DataFrame := mk_df
  { df_columns : list (str * dtype);
    df_rows : list (list cell) }.

(** [df.empty]: some axis has length zero. *)
Definition df_empty (df : DataFrame) : bool :=
  match df_columns df, df_rows df with
  | [], _ => true
  | _, [] => true
  | _ :: _, _ :: _ => false
  end.

Definition is_numeric (t : dtype) : bool :=
  match t with Int64 | Float64 => true | Object => false end.

(** [df.select_dtypes(include=['int64','float64']).columns]. *)
Definition numeric_cols (df : DataFrame) : list str :=
  map fst (filter (fun c => is_numeric (snd c)) (df_columns df)).

(** ** The world the script runs in *)

(** Python exceptions.  Every exception of the model derives from
    [Exception]; [str(e)] is its message. *)
Inductive PyExn := Exception (msg : str).

Definition exn_str (e : PyExn) : str := let 'Exception m := e in m.

Inductive Result (A : Type) :=
| Ok (a : A)
| Raise (e : PyExn).
Arguments Ok {A} a.
Arguments Raise {A} e.

(** One [client.chat.completions.create] call: the client it is made on
    (its key and its retry setting) and the arguments of the call.  The
    retry setting is [None] when the constructor was given no
    [max_retries]: the default of the library then applies. *)
Record Request := mk_request
  { req_api_key : str;
    req_max_retries : option nat;
    req_model : str;
    req_messages : list (str * str);
    req_temperature : Z }.

(** The engine object of [create_engine]: the store and the number of
    connections currently checked out of it. *)
Record Engine := mk_engine
  { eng_db : Demo.database;
    eng_checked_out : nat }.

(** What the script shows, one constructor per Streamlit call. *)
Inductive UiEvent :=
| Title (s : str)
| TextInput (label : str)
| Warning (s : str)
| Markdown (s : str)
| Button (label : str)
| Spinner (s : str)
| Subheader (s : str)
| Code (body lang : str)
| Write (s : str)
| Dataframe (df : DataFrame)
| BarChart (cols : list str)
| Error (s : str).

(** What the [try] statement of [main] puts on the screen for a table and
    for an engine error. *)
Definition table_events (df : DataFrame) : list UiEvent :=
  Subheader (lit "Query Results") ::
  (if df_empty df then [Write (lit "No rows returned.")]
   else Dataframe df ::
        (if 0 <? length (numeric_cols df)
         then [BarChart (numeric_cols df)] else [])).

Definition error_events (msg : str) : list UiEvent :=
  [Error (lit "Error executing SQL: " ++ msg)].

Definition result_events (r : DataFrame + str) : list UiEvent :=
  match r with
  | inl df => table_events df
  | inr msg => error_events msg
  end.

(** What the user and the environment supply to one run of the script:
    [os.getenv("OPENAI_API_KEY")], the two text inputs and the button. *)
Record Inputs := mk_inputs
  { env_api_key : option str;
    key_input : str;
    question_input : str;
    run_clicked : bool }.

(** The key [main] goes on with: [openai.api_key] when it is set, else what
    was typed into the key field, if anything. *)
Definition env_key_set (inp : Inputs) : bool :=
  match env_api_key inp with
  | Some k => truthy k
  | None => false
  end.

Definition api_key_of (inp : Inputs) : option str :=
  if env_key_set inp then env_api_key inp
  else if truthy (key_input inp) then Some (key_input inp)
  else None.

(** ** Text constants of the script *)

Definition dquote : str := [34%N].

(** The f-string of [generate_sql_query], in the three pieces around its
    two fields. *)
Definition prompt_head : str := lit "
You are an expert SQL generator. Generate a query following this structure:

WITH
-- Common Table Expressions (CTEs) for complex subqueries
base_data AS (
    -- Initial data gathering
),
transformed_data AS (
    -- Data transformations
)

-- Main query
SELECT 
    -- Columns with clear aliases
    column AS meaningful_name
FROM base_data
-- JOINs in logical order
LEFT JOIN other_table ON conditions
-- Filtering
WHERE conditions
-- Grouping
GROUP BY columns
-- Having clauses for group filtering
HAVING conditions
-- Final ordering
ORDER BY columns;

Schema:
".

Definition prompt_mid : str := lit "

User question: ".

Definition prompt_tail : str := lit "

Return ONLY the raw SQL query, no markdown formatting, no ```sql tags, no backticks.".

(** The last sentence of the prompt. *)
Definition closing_instruction : str :=
  lit "Return ONLY the raw SQL query, no markdown formatting, no ```sql tags, no backticks.".

Definition system_message : str := lit "You are an expert SQL query generator that produces clean, structured queries without any markdown formatting.".

Definition model_name : str := lit "gpt-3.5-turbo".

Definition schema_text : str := lit "
Tables:

1) works(
    work_id INTEGER PRIMARY KEY,
    title TEXT,
    created_year INTEGER
)

2) contributors(
    contributor_id INTEGER PRIMARY KEY,
    name TEXT,
    is_publisher BOOLEAN
)

3) work_contributors(
    work_id INTEGER,
    contributor_id INTEGER,
    share_percentage REAL
)

4) royalties(
    royalty_id INTEGER PRIMARY KEY,
    work_id INTEGER,
    amount NUMERIC,
    period_start TEXT,
    period_end TEXT
)

Relationships:
- works <-> work_contributors: 1-to-many (one work can have multiple entries in work_contributors)
- contributors <-> work_contributors: 1-to-many (one contributor can appear on multiple works)
- works <-> royalties: 1-to-many (one work can have multiple royalty entries)
".

Definition instructions : str :=
  lit "
**Instructions**:  
1. Type a question about the catalog (e.g., " ++ dquote ++
  lit "Show total royalties for each work in 2022" ++ dquote ++
  lit ").  
2. Click " ++ dquote ++
  lit "Run Query" ++ dquote ++
  lit " to generate and execute SQL automatically.  
3. Review the results below.
    ".

Definition demo_note : str := lit "**Demo database**: This is only a mock in-memory DB with ABBA-themed data. In production, connect to STIM's real schema.".

(** The assignment to [prompt]: the f-string with its two fields filled. *)
Definition build_prompt (user_question schema_description : str) : str :=
  prompt_head ++ schema_description ++ prompt_mid ++ user_question
  ++ prompt_tail.

(** The call of [generate_sql_query]: a client built from the key alone,
    and the arguments of [client.chat.completions.create]. *)
Definition build_request (user_question schema_description api_key : str)
  : Request :=
  mk_request api_key None model_name
    [ (lit "system", system_message);
      (lit "user", build_prompt user_question schema_description) ]
    0.

(** The state of one process: the hidden state of the generation service,
    the log of the calls made to it, the engine object bound to the local
    [engine] of [main] (unbound until [create_demo_db] returns), the
    statements handed to [pd.read_sql], and what Streamlit has shown. *)
Record World (SvcState : Type) := mk_world
  { svc : SvcState;
    requests : list Request;
    engine : option Engine;
    executed : list str;
    screen : list UiEvent }.
Arguments mk_world {SvcState} _ _ _ _ _.

(** ** The script *)

Section Pipeline.

(** The generation service behind [client.chat.completions.create]: the
    text of the first choice, or the message of the exception the client
    raises.  Its answer may depend on a state of its own.  One application
    of [service] is one call of [create]; the requests the client sends
    over the network inside that call (it sends a failed request again,
    see [OpenAIClient]) are the service's own business. *)
Variable SvcState : Type.
Variable service : Request -> SvcState -> (str + str) * SvcState.

(** The relational engine behind [pd.read_sql(text(sql), conn)]: the
    table it returns, or the message of the exception it raises, and the
    store as the statement leaves it for the connections to come. *)
Variable read_sql :
  str -> Demo.database -> (DataFrame + str) * Demo.database.

(** [OpenAI(api_key=...)], the constructor of the client.  It takes every
    key that is not empty.  What it does with the empty key depends on the
    version of the library, which the repository does not fix: [Some msg]
    when it raises an error with message [msg] before anything is sent,
    [None] when it builds the client all the same. *)
Variable rejects_empty_key : option str.

(** Whether the database library commits by itself a statement that
    [conn.execute] runs outside an explicit transaction.  SQLAlchemy
    before 2.0 does; SQLAlchemy 2.0 does not, and rolls the work of a
    connection back when the connection is released without
    [conn.commit()].  The repository does not fix the version. *)
Variable autocommit : bool.

Abbreviation W := (World SvcState).

(** Computations of the script: they change the world and either return or
    raise. *)
Definition M (A : Type) : Type := W -> Result A * W.

Definition ret {A} (a : A) : M A := fun w => (Ok a, w).

Definition bind {A B} (m : M A) (k : A -> M B) : M B :=
  fun w =>
    match m w with
    | (Ok a, w') => k a w'
    | (Raise e, w') => (Raise e, w')
    end.

Definition raise {A} (e : PyExn) : M A := fun w => (Raise e, w).

Notation "x <- m ;; k" := (bind m (fun x => k))
  (at level 61, m at next level, right associativity).
Notation "m ;; k" := (bind m (fun _ => k))
  (at level 61, right associativity).

(** [try: body except Exception as e: handler(e)]. *)
Definition try_except {A} (body : M A) (handler : PyExn -> M A) : M A :=
  fun w =>
    match body w with
    | (Ok a, w') => (Ok a, w')
    | (Raise e, w') => handler e w'
    end.

(** [try: body finally: cleanup]. *)
Definition finally {A} (body : M A) (cleanup : M unit) : M A :=
  fun w =>
    let (r, w') := body w in
    match cleanup w' with
    | (Ok _, w'') => (r, w'')
    | (Raise e, w'') => (Raise e, w'')
    end.

(** One Streamlit call that shows something. *)
Definition show (evs : list UiEvent) (w : W) : W :=
  mk_world (svc w) (requests w) (engine w) (executed w) (screen w ++ evs).

Definition st (ev : UiEvent) : M unit := fun w => (Ok tt, show [ev] w).

Definition set_engine (e : Engine) : M unit :=
  fun w =>
    (Ok tt, mk_world (svc w) (requests w) (Some e) (executed w) (screen w)).

Definition unbound_engine : PyExn :=
  Exception (lit "local variable 'engine' referenced before assignment").

(** [engine.connect()] and the [__exit__] of the connection. *)
Definition connect : M unit :=
  fun w =>
    match engine w with
    | Some e => set_engine (mk_engine (eng_db e) (S (eng_checked_out e))) w
    | None => (Raise unbound_engine, w)
    end.

Definition close : M unit :=
  fun w =>
    match engine w with
    | Some e =>
        set_engine (mk_engine (eng_db e) (Nat.pred (eng_checked_out e))) w
    | None => (Raise unbound_engine, w)
    end.

(** [with engine.connect() as conn: body]. *)
Definition with_connect {A} (body : M A) : M A :=
  connect ;; finally body close.

(** [create_demo_db]: a fresh in-memory engine, then the [CREATE TABLE]
    and [INSERT] statements inside one connection scope.  A store holds
    the rows of its tables, so the store of a fresh engine and the store
    of the four tables without rows are the same value. *)
Definition empty_db : Demo.database := Demo.mk_database [] [] [] [].

(** The statements of the scope, as the connection sees the store once
    they have run. *)
Definition run_seed_script : M unit :=
  fun w =>
    match engine w with
    | Some e => set_engine (mk_engine Demo.seeded (eng_checked_out e)) w
    | None => (Raise unbound_engine, w)
    end.

(** The end of the scope.  [create_demo_db] never calls [conn.commit()]:
    the tables stay (SQLite runs [CREATE TABLE] outside a transaction),
    the inserted rows stay only if the library has committed them by
    itself, and are rolled back otherwise. *)
Definition release_uncommitted : M unit :=
  fun w =>
    match engine w with
    | Some e =>
        set_engine
          (mk_engine (if autocommit then eng_db e else empty_db)
             (eng_checked_out e)) w
    | None => (Raise unbound_engine, w)
    end.

Definition create_demo_db : M unit :=
  set_engine (mk_engine empty_db 0) ;;
  connect ;;
  finally run_seed_script (release_uncommitted ;; close).

(** The store of the engine that [create_demo_db] returns. *)
Definition served : Demo.database :=
  if autocommit then Demo.seeded else empty_db.

(** [client.chat.completions.create(...)] followed by
    [response.choices[0].message.content]. *)
Definition chat_completions_create (req : Request) : M str :=
  fun w =>
    let (reply, s') := service req (svc w) in
    let w' :=
      mk_world s' (requests w ++ [req]) (engine w) (executed w) (screen w) in
    match reply with
    | inl content => (Ok content, w')
    | inr msg => (Raise (Exception msg), w')
    end.

(** The error of the constructor for a key, if it raises one. *)
Definition constructor_error (api_key : str) : option str :=
  if truthy api_key then None else rejects_empty_key.

(** [OpenAI(api_key=api_key)]: the client holds the key it was given. *)
Definition OpenAI (api_key : str) : M str :=
  match constructor_error api_key with
  | None => ret api_key
  | Some msg => raise (Exception msg)
  end.

Definition generate_sql_query
  (user_question schema_description api_key : str) : M str :=
  client <- OpenAI api_key ;;
  content <- chat_completions_create
               (build_request user_question schema_description client) ;;
  ret (sanitize content).

(** [pd.read_sql(text(sql_code), conn)]. *)
Definition pd_read_sql (sql_code : str) : M DataFrame :=
  fun w =>
    match engine w with
    | Some e =>
        let (r, db') := read_sql sql_code (eng_db e) in
        let w' :=
          mk_world (svc w) (requests w)
            (Some (mk_engine db' (eng_checked_out e)))
            (executed w ++ [sql_code]) (screen w) in
        match r with
        | inl df => (Ok df, w')
        | inr msg => (Raise (Exception msg), w')
        end
    | None => (Raise unbound_engine, w)
    end.

(** The [try] statement of [main]: run the statement, show the table or
    the error. *)
Definition execute_and_show (sql_code : str) : M unit :=
  try_except
    (df <- with_connect (pd_read_sql sql_code) ;;
     st (Subheader (lit "Query Results")) ;;
     if df_empty df then st (Write (lit "No rows returned."))
     else
       st (Dataframe df) ;;
       if (0 <? length (numeric_cols df))%nat
       then st (BarChart (numeric_cols df))
       else ret tt)
    (fun e => st (Error (lit "Error executing SQL: " ++ exn_str e))).

(** The body of [if st.button("Run Query"):]. *)
Definition on_run_query (user_query api_key : str) : M unit :=
  if negb (truthy (strip user_query))
  then st (Warning (lit "Please enter a question before running the query."))
  else
    st (Spinner (lit "Generating SQL via OpenAI...")) ;;
    sql_code <- generate_sql_query user_query schema_text api_key ;;
    st (Subheader (lit "Generated SQL Query")) ;;
    st (Code sql_code (lit "sql")) ;;
    execute_and_show sql_code.

(** [main] from the point where [api_key] is known to be set. *)
Definition main_with_key (inp : Inputs) (api_key : str) : M unit :=
  create_demo_db ;;
  st (Markdown instructions) ;;
  st (TextInput (lit "Ask a question about the catalog:")) ;;
  st (Button (lit "Run Query")) ;;
  (if run_clicked inp
   then on_run_query (question_input inp) api_key
   else ret tt) ;;
  st (Markdown (lit "---")) ;;
  st (Markdown demo_note).

(** The branch of [main] taken when [openai.api_key] is not set: ask for
    the key, and stop with a warning when none is typed. *)
Definition ask_for_key (inp : Inputs) : M unit :=
  st (TextInput (lit "Enter OpenAI API Key:")) ;;
  if negb (truthy (key_input inp))
  then st (Warning (lit "Please enter an OpenAI API key to continue."))
  else main_with_key inp (key_input inp).

Definition main (inp : Inputs) : M unit :=
  st (Title (lit "STIM Query Assistant")) ;;
  match env_api_key inp with
  | Some k => if truthy k then main_with_key inp k else ask_for_key inp
  | None => ask_for_key inp
  end.

(** What a computation adds to the screen, the calls it makes to the
    generation service, and the statements it hands to the engine. *)
Definition shown {A} (m : M A) (w : W) : list UiEvent :=
  skipn (length (screen w)) (screen (snd (m w))).

Definition sent {A} (m : M A) (w : W) : list Request :=
  skipn (length (requests w)) (requests (snd (m w))).

Definition attempted {A} (m : M A) (w : W) : list str :=
  skipn (length (executed w)) (executed (snd (m w))).

End Pipeline.

(** ** The retries of the client library *)

(** The client that line 140 builds sends a request again when it fails
    with an error the library takes for transient (a lost connection, a
    timeout, a rate limit, a server error), as often as its [max_retries]
    says, two times when the constructor was told nothing.  This is the
    library's behaviour, not the repository's; it is modelled here to run
    the script against an endpoint that counts what it receives. *)
Module OpenAIClient.

(** What the endpoint answers to one request. *)
Inductive http_reply :=
| Completion (content : str)
| Failed (transient : bool) (msg : str).

Definition default_max_retries : nat := 2.

Definition max_retries (req : Request) : nat :=
  match req_max_retries req with
  | Some n => n
  | None => default_max_retries
  end.

Section Client.

(** The endpoint, with a state of its own.  The state of the client adds
    the number of requests sent so far. *)
Variable E : Type.
Variable endpoint : Request -> E -> http_reply * E.

Fixpoint send (retries : nat) (req : Request) (s : E * nat)
  : (str + str) * (E * nat) :=
  let (reply, e') := endpoint req (fst s) in
  let s' := (e', S (snd s)) in
  match reply with
  | Completion content => (inl content, s')
  | Failed transient msg =>
      match retries with
      | S n => if transient then send n req s' else (inr msg, s')
      | O => (inr msg, s')
      end
  end.

(** One call of [client.chat.completions.create]. *)
Definition create (req : Request) (s : E * nat) : (str + str) * (E * nat) :=
  send (max_retries req) req s.

End Client.

End OpenAIClient.

(** ** Stand-ins for the two external services, for running the script *)

Module Mock.

(** A generation service that refuses an empty key and otherwise plays a
    script of replies, one per call. *)
Definition service (req : Request) (script : list (str + str))
  : (str + str) * list (str + str) :=
  if truthy (req_api_key req) then
    match script with
    | [] => (inr (lit "Connection error."), [])
    | r :: rest => (r, rest)
    end
  else (inr (lit "Error code: 401 - Incorrect API key provided"), script).

Definition works_frame (rows : list Demo.work) : DataFrame :=
  mk_df
    [ (lit "work_id", Int64); (lit "title", Object);
      (lit "created_year", Int64) ]
    (map (fun r => [ CInt (Demo.work_id r); CText (Demo.title r);
                     CInt (Demo.created_year r) ]) rows).

(** An engine that knows [SELECT ... FROM works], with or without a
    filter that matches nothing. *)
Definition read_sql (sql : str) (d : Demo.database)
  : (DataFrame + str) * Demo.database :=
  if startswith (lit "SELECT") sql then
    if contains (lit "FROM works") sql then
      if contains (lit "WHERE 1 = 0") sql
      then (inl (works_frame []), d)
      else (inl (works_frame (Demo.works d)), d)
    else (inr (lit "(sqlite3.OperationalError) no such table"), d)
  else (inr (lit "(sqlite3.OperationalError) syntax error"), d).

Definition world (script : list (str + str)) : World (list (str + str)) :=
  mk_world script [] None [] [].

(** A world with an engine that holds the inserted rows and has no
    connection checked out. *)
Definition ready (script : list (str + str)) : World (list (str + str)) :=
  mk_world script [] (Some (mk_engine Demo.seeded 0)) [] [].

Definition fenced_reply : str := lit "```sql
SELECT * FROM works
```".

Definition press (question : str) : Inputs :=
  mk_inputs (Some (lit "sk-test")) [] question true.

(** The button pressed with no key in the environment or in the field. *)
Definition press_without_key (question : str) : Inputs :=
  mk_inputs None [] question true.

Definition question : str := lit "List the works".
Definition misspelt : str := lit "SELEKT * FROM works".
Definition select_works : str := lit "SELECT * FROM works".
Definition select_nothing : str := lit "SELECT * FROM works WHERE 1 = 0".
Definition timeout_message : str := lit "Request timed out.".

(** The button at rest. *)
Definition idle (question : str) : Inputs :=
  mk_inputs (Some (lit "sk-test")) [] question false.

(** A key in the environment and another one typed into the field. *)
Definition press_two_keys (question : str) : Inputs :=
  mk_inputs (Some (lit "sk-env")) (lit "sk-typed") question true.

Definition titles_frame : DataFrame :=
  mk_df [ (lit "title", Object) ] [ [ CText (lit "Waterloo") ] ].

(** An engine that answers every statement with a table of text only. *)
Definition read_titles (sql : str) (d : Demo.database)
  : (DataFrame + str) * Demo.database :=
  (inl titles_frame, d).

Definition plain_reply : str := lit "
SELECT title FROM works;
".

(** The message of a constructor that refuses the empty key. *)
Definition missing_key_message : str :=
  lit "The api_key client option must be set".

(** A constructor that refuses the empty key. *)
Definition strict : option str := Some missing_key_message.

(** The answer of the endpoint to a request without a valid key. *)
Definition unauthorized : OpenAIClient.http_reply :=
  OpenAIClient.Failed false
    (lit "Error code: 401 - Incorrect API key provided").

(** An endpoint that plays a script of answers, one per request. *)
Definition endpoint (req : Request) (script : list OpenAIClient.http_reply)
  : OpenAIClient.http_reply * list OpenAIClient.http_reply :=
  match script with
  | [] => (OpenAIClient.Failed false (lit "Connection error."), [])
  | r :: rest => (r, rest)
  end.

(** Two rate-limit answers, then a completion. *)
Definition busy_then_fine : list OpenAIClient.http_reply :=
  [ OpenAIClient.Failed true (lit "Error code: 429 - Rate limit reached");
    OpenAIClient.Failed true (lit "Error code: 429 - Rate limit reached");
    OpenAIClient.Completion fenced_reply ].

(** A world for the client with retries: the endpoint's script and no
    request sent yet. *)
Definition online (script : list OpenAIClient.http_reply)
  : World (list OpenAIClient.http_reply * nat) :=
  mk_world (script, 0) [] None [] [].

Definition tagged_reply : str := lit "```sql
SELECT title FROM works;
```
".

End Mock.

(** * Properties *)

Unset Implicit Arguments.

(** ** Python strings *)

Example sanitize_fenced :
  sanitize Mock.fenced_reply = lit "SELECT * FROM works".
Proof. reflexivity. Qed.

Example sanitize_five : sanitize (lit "`````") = lit "``".
Proof. reflexivity. Qed.

Example sanitize_mixed :
  sanitize (lit "``` ```sql`sql ` ``") = lit "`sql ` ``".
Proof. reflexivity. Qed.

(** ** Lists *)

Lemma skipn_app_exact {A} (l k : list A) : skipn (length l) (l ++ k) = k.
Proof. induction l; simpl; auto. Qed.

Lemma skipn_all_exact {A} (l : list A) : skipn (length l) l = [].
Proof. induction l; simpl; auto. Qed.

(** ** Python strings, continued *)

Section StrFacts.

Lemma startswith_app (p s : str) : startswith p (p ++ s) = true.
Proof.
  induction p as [|a p IH]; simpl; [reflexivity|].
  now rewrite N.eqb_refl.
Qed.

Lemma startswith_split (p s : str) :
  startswith p s = true -> s = p ++ skipn (length p) s.
Proof.
  revert s. induction p as [|a p IH]; intros s H; [reflexivity|].
  destruct s as [|b s]; simpl in H; [discriminate|].
  apply andb_prop in H. destruct H as [Hab Hp].
  apply N.eqb_eq in Hab. subst b. simpl. f_equal. now apply IH.
Qed.

Lemma contains_unfold (p s : str) :
  contains p s =
  startswith p s || match s with [] => false | _ :: t => contains p t end.
Proof. destruct s; reflexivity. Qed.

Lemma contains_occurs (p s : str) : contains p s = true <-> occurs p s.
Proof.
  split.
  - induction s as [|c t IH]; rewrite contains_unfold; intros H;
      apply orb_prop in H; destruct H as [H|H].
    + exists [], (skipn (length p) []). now apply startswith_split.
    + discriminate.
    + exists [], (skipn (length p) (c :: t)). now apply startswith_split.
    + destruct (IH H) as (pre & post & ->). now exists (c :: pre), post.
  - intros (pre & post & ->). induction pre as [|c pre IH];
      rewrite contains_unfold.
    + simpl. now rewrite startswith_app.
    + simpl. rewrite IH. apply orb_true_r.
Qed.

Lemma occurs_inside (p s pre post : str) :
  occurs p s -> occurs p (pre ++ s ++ post).
Proof.
  intros (a & b & ->). exists (pre ++ a), (b ++ post).
  now rewrite <- !app_assoc.
Qed.

Lemma absent_inside (p s pre post : str) :
  contains p (pre ++ s ++ post) = false -> contains p s = false.
Proof.
  intros H. destruct (contains p s) eqn:E; [|reflexivity].
  apply contains_occurs in E.
  apply (occurs_inside _ _ pre post), contains_occurs in E. congruence.
Qed.

Lemma replace_nil (o : codepoint) (old' new : str) :
  replace (o :: old') new [] = [].
Proof. now simp replace. Qed.

Lemma replace_cons (o : codepoint) (old' new : str) c t :
  replace (o :: old') new (c :: t) =
  if startswith (o :: old') (c :: t)
  then new ++ replace (o :: old') new (skipn (length old') t)
  else c :: replace (o :: old') new t.
Proof.
  simp replace. destruct (startswith (o :: old') (c :: t)); now simp replace.
Qed.

(** Replacing a text that does not occur changes nothing. *)
Lemma replace_absent (o : codepoint) (old' new s : str) :
  contains (o :: old') s = false -> replace (o :: old') new s = s.
Proof.
  induction s as [|c t IH]; intros H; [apply replace_nil|].
  rewrite contains_unfold in H. apply orb_false_elim in H.
  destruct H as [H1 H2]. rewrite replace_cons, H1. f_equal. now apply IH.
Qed.

Lemma lstrip_head (s : str) c t : lstrip s = c :: t -> isspace c = false.
Proof.
  induction s as [|a s IH]; simpl; [discriminate|].
  destruct (isspace a) eqn:E; [exact IH|].
  intros H. now injection H as <- _.
Qed.

Lemma lstrip_split (s : str) : exists pre, s = pre ++ lstrip s.
Proof.
  induction s as [|a s [pre IH]]; [now exists []|]. simpl.
  destruct (isspace a); [|now exists []].
  exists (a :: pre). simpl. now f_equal.
Qed.

Lemma lstrip_fixed (s : str) :
  (forall c t, s = c :: t -> isspace c = false) -> lstrip s = s.
Proof.
  destruct s as [|a s]; [reflexivity|]. intros H. simpl.
  now rewrite (H a s eq_refl).
Qed.

Lemma rstrip_split (s : str) : exists post, s = rstrip s ++ post.
Proof.
  unfold rstrip. destruct (lstrip_split (rev s)) as [pre H].
  exists (rev pre). rewrite <- rev_app_distr, <- H. now rewrite rev_involutive.
Qed.

Lemma rstrip_last (s : str) c t : rstrip s = t ++ [c] -> isspace c = false.
Proof.
  unfold rstrip. intros H. apply (f_equal (@rev _)) in H.
  rewrite rev_involutive, rev_app_distr in H. simpl in H.
  exact (lstrip_head _ _ _ H).
Qed.

Lemma rstrip_fixed (s : str) :
  (forall c t, s = t ++ [c] -> isspace c = false) -> rstrip s = s.
Proof.
  intros H. unfold rstrip. rewrite lstrip_fixed; [apply rev_involutive|].
  intros c t E. apply (H c (rev t)).
  rewrite <- (rev_involutive s), E. reflexivity.
Qed.

(** [strip] returns a slice of its argument. *)
Lemma strip_split (s : str) : exists pre post, s = pre ++ strip s ++ post.
Proof.
  unfold strip. destruct (lstrip_split s) as [pre Hp].
  destruct (rstrip_split (lstrip s)) as [post Hq].
  exists pre, post. now rewrite <- Hq.
Qed.

Lemma strip_trimmed (s : str) : trimmed (strip s).
Proof.
  unfold strip. split.
  - intros c t H. destruct (rstrip_split (lstrip s)) as [post Hq].
    rewrite H in Hq. exact (lstrip_head _ _ _ Hq).
  - intros c t H. exact (rstrip_last _ _ _ H).
Qed.

Lemma strip_fixed (s : str) : trimmed s -> strip s = s.
Proof.
  intros [Hh Hl]. unfold strip. rewrite (lstrip_fixed _ Hh).
  now apply rstrip_fixed.
Qed.

End StrFacts.

(** ** The sanitizer *)

Section SanitizeFacts.

Let b := backtick.

Lemma fence_eq : fence = [b; b; b].
Proof. reflexivity. Qed.

Lemma fence_sql_eq : fence_sql = fence ++ lit "sql".
Proof. reflexivity. Qed.

Lemma leading_two (a : codepoint) (s : str) :
  2 <= leading a s -> exists t, s = a :: a :: t.
Proof.
  destruct s as [|x [|y t]]; simpl.
  - lia.
  - destruct (N.eqb_spec x a); lia.
  - destruct (N.eqb_spec x a); [|lia].
    destruct (N.eqb_spec y a); [|lia].
    subst. intros _. now exists t.
Qed.

Lemma startswith_fence (s : str) :
  startswith [b; b; b] s = true -> exists t, s = b :: b :: b :: t.
Proof.
  intros H. apply startswith_split in H. now exists (skipn 3 s).
Qed.

(** Deleting the fences from left to right leaves fewer leading backticks
    than before and no fence: a fence among the code points that remain
    would have been found by the scan. *)
Lemma replace_fence_scan (n : nat) : forall s : str,
  length s <= n ->
  contains fence (replace fence [] s) = false /\
  leading b (replace fence [] s) <= leading b s.
Proof.
  rewrite fence_eq.
  induction n as [|n IH]; intros [|c t] Hlen; simpl in Hlen;
    try (rewrite replace_nil; split; [reflexivity|lia]); [lia|].
  rewrite replace_cons. destruct (startswith [b; b; b] (c :: t)) eqn:E.
  - destruct (startswith_fence _ E) as [rest Hs].
    injection Hs as -> ->. simpl app. simpl skipn.
    destruct (IH rest) as [Hc Hl]; [simpl in Hlen; lia|].
    split; [exact Hc|]. simpl leading. rewrite ?N.eqb_refl. lia.
  - destruct (IH t) as [Hc Hl]; [lia|]. split.
    + rewrite contains_unfold, Hc, orb_false_r.
      destruct (startswith [b; b; b] (c :: replace [b; b; b] [] t)) eqn:F;
        [|reflexivity].
      destruct (startswith_fence _ F) as [rest Hs].
      injection Hs as -> Hr.
      assert (H2 : 2 <= leading b t).
      { rewrite Hr in Hl. simpl in Hl. rewrite ?N.eqb_refl in Hl. lia. }
      destruct (leading_two _ _ H2) as [t' ->].
      simpl in E. rewrite ?N.eqb_refl in E. discriminate.
    + simpl. destruct (c =? b)%N; lia.
Qed.

Lemma replace_fence_clean (s : str) :
  contains fence (replace fence [] s) = false.
Proof. exact (proj1 (replace_fence_scan (length s) s (le_n _))). Qed.

Lemma no_fence_no_fence_sql (s : str) :
  contains fence s = false -> contains fence_sql s = false.
Proof.
  intros H. destruct (contains fence_sql s) eqn:E; [|reflexivity].
  apply contains_occurs in E. destruct E as (pre & post & ->).
  rewrite fence_sql_eq, <- app_assoc in H.
  assert (contains fence (pre ++ fence ++ lit "sql" ++ post) = true)
    by (apply contains_occurs; now exists pre, (lit "sql" ++ post)).
  congruence.
Qed.

Lemma sanitize_no_fence (content : str) :
  contains fence (sanitize content) = false.
Proof.
  unfold sanitize.
  destruct (strip_split
              (replace fence [] (replace fence_sql [] (strip content))))
    as (pre & post & H).
  apply (absent_inside _ _ pre post). rewrite <- H.
  apply replace_fence_clean.
Qed.

Lemma sanitize_trimmed (content : str) : trimmed (sanitize content).
Proof. apply strip_trimmed. Qed.

Lemma sanitize_fixed (s : str) :
  contains fence s = false -> trimmed s -> sanitize s = s.
Proof.
  intros Hf Ht. unfold sanitize. rewrite (strip_fixed _ Ht).
  pose proof (no_fence_no_fence_sql _ Hf) as Hq.
  rewrite fence_sql_eq, fence_eq in Hq.
  change (fence_sql) with ((b :: [b; b]) ++ lit "sql").
  simpl app. simpl app in Hq. rewrite (replace_absent _ _ _ _ Hq).
  rewrite fence_eq in Hf |- *. rewrite (replace_absent _ _ _ _ Hf).
  apply strip_fixed, Ht.
Qed.

End SanitizeFacts.

(** C9. The post-processing of the service's text (strip, delete every
    fence with its language tag, delete every remaining fence, strip) is
    idempotent: applying it to its own result changes nothing. *)
Theorem sanitize_idempotent (s : str) : sanitize (sanitize s) = sanitize s.
Proof.
  apply sanitize_fixed.
  - apply sanitize_no_fence.
  - apply sanitize_trimmed.
Qed.

(** ** Whitespace and [strip] *)

Section StripFacts.

Lemma forallb_rev {A} (f : A -> bool) (l : list A) :
  forallb f (rev l) = forallb f l.
Proof.
  induction l as [|a l IH]; [reflexivity|]. simpl.
  rewrite forallb_app, IH. simpl. rewrite andb_true_r. apply andb_comm.
Qed.

Lemma lstrip_blank (s : str) : forallb isspace s = true -> lstrip s = [].
Proof.
  induction s as [|c s IH]; [reflexivity|]. simpl.
  intros H. apply andb_prop in H. destruct H as [Hc Hs].
  rewrite Hc. now apply IH.
Qed.

Lemma lstrip_past (pre s : str) :
  forallb isspace pre = true -> lstrip (pre ++ s) = lstrip s.
Proof.
  induction pre as [|c pre IH]; [reflexivity|]. simpl.
  intros H. apply andb_prop in H. destruct H as [Hc Hs].
  rewrite Hc. now apply IH.
Qed.

Lemma rstrip_past (s post : str) :
  forallb isspace post = true -> rstrip (s ++ post) = rstrip s.
Proof.
  intros H. unfold rstrip. rewrite rev_app_distr, lstrip_past; [reflexivity|].
  now rewrite forallb_rev.
Qed.

Lemma lstrip_blank_split (s : str) :
  exists pre, s = pre ++ lstrip s /\ forallb isspace pre = true.
Proof.
  induction s as [|c s (pre & IH & Hp)]; [now exists []|]. simpl.
  destruct (isspace c) eqn:E; [|now exists []].
  exists (c :: pre). simpl. rewrite E, Hp. split; [now f_equal|reflexivity].
Qed.

Lemma rstrip_blank_split (s : str) :
  exists post, s = rstrip s ++ post /\ forallb isspace post = true.
Proof.
  unfold rstrip. destruct (lstrip_blank_split (rev s)) as (pre & H & Hp).
  exists (rev pre). split.
  - rewrite <- rev_app_distr, <- H. now rewrite rev_involutive.
  - now rewrite forallb_rev.
Qed.

(** What [strip] removes is whitespace. *)
Lemma strip_blank_split (s : str) :
  exists pre post,
    s = pre ++ strip s ++ post /\
    forallb isspace pre = true /\ forallb isspace post = true.
Proof.
  unfold strip. destruct (lstrip_blank_split s) as (pre & Hs & Hp).
  destruct (rstrip_blank_split (lstrip s)) as (post & Hl & Hq).
  exists pre, post. now rewrite <- Hl.
Qed.

(** [strip] undoes whitespace put around a text whose ends are not
    whitespace. *)
Lemma strip_around (pre m post : str) :
  forallb isspace pre = true ->
  forallb isspace post = true ->
  trimmed m ->
  strip (pre ++ m ++ post) = m.
Proof.
  intros Hp Hq [Hh Hl]. unfold strip. rewrite lstrip_past by exact Hp.
  destruct m as [|c m'].
  - simpl. now rewrite lstrip_blank.
  - rewrite lstrip_fixed.
    + rewrite rstrip_past by exact Hq. now apply rstrip_fixed.
    + intros c0 t E. injection E as <- _. exact (Hh c m' eq_refl).
Qed.

(** A text has a non-empty [strip] exactly when some code point of it is
    not whitespace. *)
Lemma truthy_strip (s : str) : truthy (strip s) = negb (forallb isspace s).
Proof.
  destruct (forallb isspace s) eqn:E; simpl.
  - unfold strip. now rewrite lstrip_blank.
  - destruct (strip s) eqn:Es; [|reflexivity].
    destruct (strip_blank_split s) as (pre & post & H & Hp & Hq).
    rewrite Es in H. rewrite H, forallb_app, Hp in E. simpl in E.
    congruence.
Qed.

End StripFacts.

(** ** Deleting with [replace] *)

Section ReplaceFacts.

Lemma subseq_refl (s : str) : subseq s s.
Proof. induction s; constructor; assumption. Qed.

Lemma subseq_nil_l (s : str) : subseq [] s.
Proof. induction s; constructor; assumption. Qed.

Lemma subseq_trans (a m c : str) : subseq a m -> subseq m c -> subseq a c.
Proof.
  intros Ham Hmc. revert a Ham.
  induction Hmc as [|x m c Hmc IH|x m c Hmc IH]; intros a Ham.
  - exact Ham.
  - constructor. now apply IH.
  - inversion Ham; subst.
    + apply subseq_skip. now apply IH.
    + apply subseq_keep. now apply IH.
Qed.

Lemma subseq_length (s t : str) : subseq s t -> length s <= length t.
Proof. induction 1; simpl; lia. Qed.

Lemma subseq_app_l (pre s t : str) : subseq s t -> subseq s (pre ++ t).
Proof.
  intros H. induction pre; simpl; [exact H|now apply subseq_skip].
Qed.

Lemma subseq_app_r (s t post : str) : subseq s t -> subseq s (t ++ post).
Proof.
  induction 1; simpl; try (constructor; assumption). apply subseq_nil_l.
Qed.

Lemma subseq_skipn (n : nat) (s : str) : subseq (skipn n s) s.
Proof.
  revert s. induction n as [|n IH]; intros [|c s]; simpl;
    try apply subseq_refl. apply subseq_skip. apply IH.
Qed.

Lemma strip_subseq (s : str) : subseq (strip s) s.
Proof.
  destruct (strip_split s) as (pre & post & H). rewrite H at 2.
  apply subseq_app_l, subseq_app_r, subseq_refl.
Qed.

(** Replacing by the empty string only deletes. *)
Lemma replace_deletes (o : codepoint) (old' : str) (n : nat) :
  forall s, length s <= n -> subseq (replace (o :: old') [] s) s.
Proof.
  induction n as [|n IH]; intros [|c t] Hlen; simpl in Hlen;
    try (rewrite replace_nil; constructor); [lia|].
  rewrite replace_cons. destruct (startswith (o :: old') (c :: t)).
  - simpl app. apply subseq_skip.
    apply subseq_trans with (m := skipn (length old') t).
    + apply IH. rewrite length_skipn. lia.
    + apply subseq_skipn.
  - apply subseq_keep. apply IH. lia.
Qed.

(** The scan copies what comes before the first code point of [old]. *)
Lemma replace_past (o : codepoint) (old' new s t : str) :
  ~ In o s ->
  replace (o :: old') new (s ++ t) = s ++ replace (o :: old') new t.
Proof.
  induction s as [|c s IH]; intros Hn; [reflexivity|].
  simpl app. rewrite replace_cons. simpl startswith.
  destruct (N.eqb_spec o c) as [->|Hne].
  - exfalso. apply Hn. now left.
  - simpl. f_equal. apply IH. intros Hi. apply Hn. now right.
Qed.

End ReplaceFacts.

(** ** What the sanitizer does to a reply *)

Section UnwrapFacts.

Lemma fence_sql_cons :
  fence_sql = backtick :: [backtick; backtick; 115; 113; 108]%N.
Proof. reflexivity. Qed.

Lemma sql_eq : lit "sql" = [115; 113; 108]%N.
Proof. reflexivity. Qed.

Lemma startswith_cons (a c : codepoint) (p s : str) :
  startswith (a :: p) (c :: s) = (a =? c)%N && startswith p s.
Proof. reflexivity. Qed.

Lemma replace_hit (o : codepoint) (old' new rest : str) :
  replace (o :: old') new ((o :: old') ++ rest)
  = new ++ replace (o :: old') new rest.
Proof.
  pose proof (startswith_app (o :: old') rest) as H. simpl app in *.
  rewrite replace_cons, H. f_equal. f_equal. apply skipn_app_exact.
Qed.

Lemma sanitize_strip (c : str) : sanitize (strip c) = sanitize c.
Proof.
  unfold sanitize. now rewrite (strip_fixed _ (strip_trimmed c)).
Qed.

(** On a reply without a fence the sanitizer is [strip]. *)
Lemma sanitize_fence_free (c : str) :
  contains fence c = false -> sanitize c = strip c.
Proof.
  intros H. rewrite <- sanitize_strip. apply sanitize_fixed.
  - destruct (strip_split c) as (pre & post & Hc).
    apply (absent_inside _ _ pre post). now rewrite <- Hc.
  - apply strip_trimmed.
Qed.

Lemma fenced_trimmed (x : str) : trimmed (fence ++ x ++ fence).
Proof.
  split; intros c t E.
  - rewrite fence_eq in E. injection E as <- _. reflexivity.
  - assert (H : fence ++ x ++ fence
                = (fence ++ x ++ [backtick; backtick]) ++ [backtick])
      by (rewrite fence_eq; now rewrite <- !app_assoc).
    rewrite H in E. apply app_inj_tail in E. destruct E as [_ <-].
    reflexivity.
Qed.

(** The code points of a fence are not those of the tag, so the tag is
    looked for in [x] alone. *)
Lemma startswith_sql_fence (x : str) :
  startswith (lit "sql") (x ++ fence) = startswith (lit "sql") x.
Proof.
  rewrite sql_eq, fence_eq.
  destruct x as [|c1 [|c2 [|c3 x]]]; simpl; try reflexivity;
    destruct (115 =? c1)%N; try reflexivity;
    destruct (113 =? c2)%N; reflexivity.
Qed.

Lemma untagged_fence_stays (x : str) :
  ~ In backtick x ->
  startswith (lit "sql") x = false ->
  replace fence_sql [] (fence ++ x ++ fence) = fence ++ x ++ fence.
Proof.
  intros Hx Hs. destruct x as [|c x]; [reflexivity|].
  assert (Hc : (backtick =? c)%N = false).
  { apply N.eqb_neq. intros E. apply Hx. left. now symmetry. }
  pose proof (startswith_sql_fence (c :: x)) as Ht.
  rewrite Hs, sql_eq in Ht. simpl app in Ht.
  rewrite startswith_cons in Ht.
  change (fence ++ (c :: x) ++ fence)
    with (backtick :: backtick :: backtick :: c :: (x ++ fence)).
  rewrite fence_sql_cons.
  rewrite replace_cons, !startswith_cons, !N.eqb_refl, Ht. cbn [andb].
  f_equal.
  rewrite replace_cons, !startswith_cons, !N.eqb_refl, Hc. cbn [andb].
  f_equal.
  rewrite replace_cons, !startswith_cons, !N.eqb_refl, Hc. cbn [andb].
  f_equal.
  change (c :: x ++ fence) with ((c :: x) ++ fence).
  rewrite replace_past by exact Hx. reflexivity.
Qed.

(** A reply made of one fenced block: the block without its fences and
    tag is what is left before the last [strip]. *)
Lemma replace_fenced (x : str) :
  ~ In backtick x ->
  replace fence [] (replace fence_sql [] (fence ++ x ++ fence))
  = if startswith (lit "sql") x then skipn 3 x else x.
Proof.
  intros Hx. destruct (startswith (lit "sql") x) eqn:E.
  - pose proof (startswith_split _ _ E) as Hs.
    change (length (lit "sql")) with 3 in Hs.
    assert (Hx' : ~ In backtick (skipn 3 x)).
    { intros Hi. apply Hx. rewrite Hs. apply in_or_app. now right. }
    rewrite Hs at 1.
    replace (fence ++ (lit "sql" ++ skipn 3 x) ++ fence)
      with (fence_sql ++ skipn 3 x ++ fence)
      by (rewrite fence_sql_eq; now rewrite <- !app_assoc).
    rewrite fence_sql_cons, replace_hit. simpl app.
    rewrite replace_past by exact Hx'.
    change (replace (backtick :: [backtick; backtick; 115; 113; 108]%N)
              [] fence) with fence.
    rewrite fence_eq, replace_past by exact Hx'.
    change (replace [backtick; backtick; backtick] []
              [backtick; backtick; backtick]) with (@nil codepoint).
    apply app_nil_r.
  - rewrite (untagged_fence_stays _ Hx E).
    rewrite fence_eq, replace_hit. simpl app.
    rewrite replace_past by exact Hx.
    change (replace [backtick; backtick; backtick] []
              [backtick; backtick; backtick]) with (@nil codepoint).
    apply app_nil_r.
Qed.

Lemma sanitize_fenced_block (ws1 x ws2 : str) :
  forallb isspace ws1 = true ->
  forallb isspace ws2 = true ->
  ~ In backtick x ->
  sanitize (ws1 ++ fence ++ x ++ fence ++ ws2)
  = strip (if startswith (lit "sql") x then skipn 3 x else x).
Proof.
  intros H1 H2 Hx. unfold sanitize.
  replace (ws1 ++ fence ++ x ++ fence ++ ws2)
    with (ws1 ++ (fence ++ x ++ fence) ++ ws2)
    by now rewrite <- !app_assoc.
  rewrite (strip_around _ _ _ H1 H2 (fenced_trimmed x)).
  now rewrite (replace_fenced _ Hx).
Qed.

Lemma sanitize_deletes (c : str) : subseq (sanitize c) c.
Proof.
  unfold sanitize.
  apply subseq_trans with (m := strip c); [|apply strip_subseq].
  eapply subseq_trans; [apply strip_subseq|].
  eapply subseq_trans.
  - rewrite fence_eq. apply (replace_deletes _ _ _ _ (le_n _)).
  - rewrite fence_sql_cons. apply (replace_deletes _ _ _ _ (le_n _)).
Qed.

End UnwrapFacts.


(** ** The client with retries *)

(** One call of [create] sends at least one request and at most one more
    than the client's [max_retries]. *)
Lemma send_within_bounds {E : Type}
  (endpoint : Request -> E -> OpenAIClient.http_reply * E)
  (req : Request) (n : nat) :
  forall s : E * nat,
    snd s + 1 <= snd (snd (OpenAIClient.send endpoint n req s))
    <= snd s + 1 + n.
Proof.
  induction n as [|n IH]; intros s; simpl;
    destruct (endpoint req (fst s)) as [[content|transient msg] e'];
    simpl; try lia.
  destruct transient; simpl; [|lia].
  specialize (IH (e', S (snd s))). simpl in IH. lia.
Qed.

Lemma create_sends_within_bounds {E : Type}
  (endpoint : Request -> E -> OpenAIClient.http_reply * E)
  (req : Request) (s : E * nat) :
  snd s + 1 <= snd (snd (OpenAIClient.create endpoint req s))
  <= snd s + 1 + OpenAIClient.max_retries req.
Proof. apply send_within_bounds. Qed.

(** ** The script, step by step *)

Section ScriptFacts.

Variable SvcState : Type.
Variable service : Request -> SvcState -> (str + str) * SvcState.
Variable read_sql :
  str -> Demo.database -> (DataFrame + str) * Demo.database.
Variable rejects_empty_key : option str.
Variable autocommit : bool.

Abbreviation W := (World SvcState).
Abbreviation generate := (generate_sql_query service rejects_empty_key).
Abbreviation execute := (execute_and_show (SvcState := SvcState) read_sql).
Abbreviation script := (main service read_sql rejects_empty_key autocommit).
Abbreviation with_key :=
  (main_with_key service read_sql rejects_empty_key autocommit).
Abbreviation refusal := (constructor_error rejects_empty_key).
Abbreviation store := (served autocommit).

(** The constructor takes every key that is not empty, and [main] goes on
    with no other key. *)
Lemma constructor_accepts (k : str) : truthy k = true -> refusal k = None.
Proof. unfold constructor_error. now intros ->. Qed.

Lemma api_key_truthy (inp : Inputs) (k : str) :
  api_key_of inp = Some k -> truthy k = true.
Proof.
  unfold api_key_of, env_key_set.
  destruct (env_api_key inp) as [k0|]; [destruct (truthy k0) eqn:E|];
    destruct (truthy (key_input inp)) eqn:F; intros H;
    try discriminate; injection H as <-; assumption.
Qed.

(** One call of [generate_sql_query]: nothing happens when the constructor
    refuses the key; otherwise one request goes to the service, whatever
    the answer. *)
Lemma generate_run (q sch k : str) (w : W) :
  generate q sch k w =
  match refusal k with
  | Some msg => (Raise (Exception msg), w)
  | None =>
      let req := build_request q sch k in
      let w' := mk_world (snd (service req (svc w))) (requests w ++ [req])
                  (engine w) (executed w) (screen w) in
      match fst (service req (svc w)) with
      | inl content => (Ok (sanitize content), w')
      | inr msg => (Raise (Exception msg), w')
      end
  end.
Proof.
  unfold generate_sql_query, OpenAI, bind, raise, ret,
    chat_completions_create.
  destruct (constructor_error rejects_empty_key k); [reflexivity|].
  destruct (service _ _) as [[content|msg] s']; reflexivity.
Qed.

Lemma show_show (a c : list UiEvent) (w : W) :
  show c (show a w) = show (a ++ c) w.
Proof. unfold show; simpl. now rewrite app_assoc. Qed.

Lemma st_run (ev : UiEvent) (w : W) : st ev w = (Ok tt, show [ev] w).
Proof. reflexivity. Qed.

Lemma bind_ok {A B} (m : M SvcState A) (k : A -> M SvcState B) w a w' :
  m w = (Ok a, w') -> bind m k w = k a w'.
Proof. unfold bind. now intros ->. Qed.

(** The [try] statement on a bound engine: it returns, the connection
    count is what it was, and the screen shows the outcome. *)
Lemma execute_run (sql : str) (w : W) (e : Engine) :
  engine w = Some e ->
  execute sql w =
  (Ok tt,
   mk_world (svc w) (requests w)
     (Some (mk_engine (snd (read_sql sql (eng_db e))) (eng_checked_out e)))
     (executed w ++ [sql])
     (screen w ++ result_events (fst (read_sql sql (eng_db e))))).
Proof.
  intros He.
  unfold execute_and_show, try_except, bind, with_connect, bind, connect,
    finally, close, pd_read_sql, set_engine, st, ret, show.
  rewrite He. cbn [engine eng_db eng_checked_out svc requests executed screen
                   Nat.pred].
  destruct (read_sql sql (eng_db e)) as [[df|msg] db'];
    cbn [fst snd engine eng_db eng_checked_out svc requests executed screen
         Nat.pred exn_str result_events error_events]; [|reflexivity].
  unfold table_events. destruct (df_empty df);
    cbn [engine eng_db eng_checked_out svc requests executed screen].
  - now rewrite <- app_assoc.
  - destruct (0 <? length (numeric_cols df));
      cbn [engine eng_db eng_checked_out svc requests executed screen];
      now rewrite <- !app_assoc.
Qed.

(** [create_demo_db] leaves a bound engine with no connection checked out;
    its store has the inserted rows only if the library committed them. *)
Lemma create_demo_db_run (w : W) :
  create_demo_db autocommit w =
  (Ok tt,
   mk_world (svc w) (requests w) (Some (mk_engine store 0))
     (executed w) (screen w)).
Proof. unfold served. destruct autocommit; reflexivity. Qed.

(** The body of the button, for a question that is not blank. *)
Lemma on_run_query_run (q k : str) (w : W) (e : Engine) :
  engine w = Some e ->
  truthy (strip q) = true ->
  truthy k = true ->
  on_run_query service read_sql rejects_empty_key q k w =
  let req := build_request q schema_text k in
  let reply := service req (svc w) in
  let w1 := mk_world (snd reply) (requests w ++ [req]) (Some e) (executed w)
              (screen w ++ [Spinner (lit "Generating SQL via OpenAI...")]) in
  match fst reply with
  | inl content =>
      execute (sanitize content)
        (show [ Subheader (lit "Generated SQL Query");
                Code (sanitize content) (lit "sql") ] w1)
  | inr msg => (Raise (Exception msg), w1)
  end.
Proof.
  intros He Hq Hk. unfold on_run_query. rewrite Hq. cbn [negb].
  rewrite (bind_ok _ _ _ _ _ (st_run _ w)).
  unfold bind at 1. rewrite generate_run, (constructor_accepts _ Hk).
  cbn zeta.
  destruct (service _ _) as [[content|msg] s'];
    cbn [fst snd show svc requests engine executed screen]; rewrite He;
    [|reflexivity].
  rewrite (bind_ok _ _ _ _ _ (st_run _ _)), (bind_ok _ _ _ _ _ (st_run _ _)).
  now rewrite show_show.
Qed.

(** [main] once the key is known, when the button is pressed on a
    question that is not blank. *)
Lemma main_with_key_click (inp : Inputs) (k : str) (w : W) :
  run_clicked inp = true ->
  truthy (strip (question_input inp)) = true ->
  truthy k = true ->
  with_key inp k w =
  let req := build_request (question_input inp) schema_text k in
  let reply := service req (svc w) in
  let head := [ Markdown instructions;
                TextInput (lit "Ask a question about the catalog:");
                Button (lit "Run Query");
                Spinner (lit "Generating SQL via OpenAI...") ] in
  match fst reply with
  | inl content =>
      let sql := sanitize content in
      let out := read_sql sql store in
      (Ok tt,
       mk_world (snd reply) (requests w ++ [req])
         (Some (mk_engine (snd out) 0)) (executed w ++ [sql])
         (screen w ++ head ++
          [Subheader (lit "Generated SQL Query"); Code sql (lit "sql")] ++
          result_events (fst out) ++
          [Markdown (lit "---"); Markdown demo_note]))
  | inr msg =>
      (Raise (Exception msg),
       mk_world (snd reply) (requests w ++ [req])
         (Some (mk_engine store 0)) (executed w) (screen w ++ head))
  end.
Proof.
  intros Hc Hq Hk. unfold main_with_key.
  rewrite (bind_ok _ _ _ _ _ (create_demo_db_run w)).
  do 3 rewrite (bind_ok _ _ _ _ _ (st_run _ _)).
  rewrite Hc, !show_show. unfold bind at 1.
  rewrite on_run_query_run with (e := mk_engine store 0);
    [|reflexivity|exact Hq|exact Hk].
  cbn zeta. cbn [show svc requests engine executed screen].
  destruct (service _ _) as [[content|msg] s']; cbn [fst snd].
  - rewrite execute_run with (e := mk_engine store 0);
      [|reflexivity].
    cbn [show svc requests engine executed screen eng_db eng_checked_out].
    rewrite (bind_ok _ _ _ _ _ (st_run _ _)), st_run. unfold show.
    cbn [svc requests engine executed screen app].
    now rewrite <- !app_assoc.
  - now rewrite <- !app_assoc.
Qed.

(** The part of the page that does not depend on the button. *)
Lemma main_with_key_idle (inp : Inputs) (k : str) (w : W) :
  run_clicked inp = false ->
  with_key inp k w =
  (Ok tt,
   mk_world (svc w) (requests w) (Some (mk_engine store 0))
     (executed w)
     (screen w ++
      [ Markdown instructions;
        TextInput (lit "Ask a question about the catalog:");
        Button (lit "Run Query");
        Markdown (lit "---");
        Markdown demo_note ])).
Proof.
  intros Hc. unfold main_with_key.
  rewrite (bind_ok _ _ _ _ _ (create_demo_db_run w)).
  do 3 rewrite (bind_ok _ _ _ _ _ (st_run _ _)).
  rewrite Hc. unfold bind at 1, ret.
  rewrite (bind_ok _ _ _ _ _ (st_run _ _)), st_run, !show_show.
  unfold show. cbn [svc requests engine executed screen app]. reflexivity.
Qed.

Lemma main_with_key_blank (inp : Inputs) (k : str) (w : W) :
  run_clicked inp = true ->
  truthy (strip (question_input inp)) = false ->
  with_key inp k w =
  (Ok tt,
   mk_world (svc w) (requests w) (Some (mk_engine store 0))
     (executed w)
     (screen w ++
      [ Markdown instructions;
        TextInput (lit "Ask a question about the catalog:");
        Button (lit "Run Query");
        Warning (lit "Please enter a question before running the query.");
        Markdown (lit "---");
        Markdown demo_note ])).
Proof.
  intros Hc Hq. unfold main_with_key.
  rewrite (bind_ok _ _ _ _ _ (create_demo_db_run w)).
  do 3 rewrite (bind_ok _ _ _ _ _ (st_run _ _)).
  rewrite Hc. unfold on_run_query. rewrite Hq. cbn [negb].
  rewrite (bind_ok _ _ _ _ _ (st_run _ _)).
  rewrite (bind_ok _ _ _ _ _ (st_run _ _)), st_run, !show_show.
  unfold show. cbn [svc requests engine executed screen app]. reflexivity.
Qed.

(** [main_with_key] starts by binding a fresh engine, so the engine of the
    world it starts in plays no part. *)
Lemma main_with_key_fresh (inp : Inputs) (k : str) (w : W)
  (o : option Engine) :
  with_key inp k
    (mk_world (svc w) (requests w) o (executed w) (screen w))
  = with_key inp k w.
Proof.
  unfold main_with_key.
  rewrite (bind_ok _ _ _ _ _ (create_demo_db_run _)).
  now rewrite (bind_ok _ _ _ _ _ (create_demo_db_run w)).
Qed.

(** [main] up to the point where the key is known. *)
Lemma main_key (inp : Inputs) (k : str) (w : W) :
  api_key_of inp = Some k ->
  script inp w =
  with_key inp k
    (show (Title (lit "STIM Query Assistant") ::
           if env_key_set inp then []
           else [TextInput (lit "Enter OpenAI API Key:")]) w).
Proof.
  unfold main, api_key_of, env_key_set, ask_for_key. intros H.
  rewrite (bind_ok _ _ _ _ _ (st_run _ _)).
  destruct (env_api_key inp) as [k0|]; [destruct (truthy k0)|].
  - now injection H as <-.
  - destruct (truthy (key_input inp)); [|discriminate]. injection H as <-.
    now rewrite (bind_ok _ _ _ _ _ (st_run _ _)), show_show.
  - destruct (truthy (key_input inp)); [|discriminate]. injection H as <-.
    now rewrite (bind_ok _ _ _ _ _ (st_run _ _)), show_show.
Qed.

(** [main] without a key: the warning, and nothing else. *)
Lemma main_no_key (inp : Inputs) (w : W) :
  api_key_of inp = None ->
  script inp w =
  (Ok tt,
   show [ Title (lit "STIM Query Assistant");
          TextInput (lit "Enter OpenAI API Key:");
          Warning (lit "Please enter an OpenAI API key to continue.") ] w).
Proof.
  unfold main, api_key_of, env_key_set, ask_for_key. intros H.
  rewrite (bind_ok _ _ _ _ _ (st_run _ _)).
  destruct (env_api_key inp) as [k0|]; [destruct (truthy k0)|];
    try discriminate;
    (destruct (truthy (key_input inp)); [discriminate|]);
    cbn [negb];
    now rewrite (bind_ok _ _ _ _ _ (st_run _ _)), st_run, !show_show.
Qed.

(** [main] in a cycle: the key it goes on with is not empty. *)
Lemma main_click (inp : Inputs) (k : str) (w : W) :
  api_key_of inp = Some k ->
  run_clicked inp = true ->
  truthy (strip (question_input inp)) = true ->
  script inp w =
  let w0 := show (Title (lit "STIM Query Assistant") ::
                  if env_key_set inp then []
                  else [TextInput (lit "Enter OpenAI API Key:")]) w in
  let req := build_request (question_input inp) schema_text k in
  let reply := service req (svc w) in
  let head := [ Markdown instructions;
                TextInput (lit "Ask a question about the catalog:");
                Button (lit "Run Query");
                Spinner (lit "Generating SQL via OpenAI...") ] in
  match fst reply with
  | inl content =>
      let sql := sanitize content in
      let out := read_sql sql store in
      (Ok tt,
       mk_world (snd reply) (requests w ++ [req])
         (Some (mk_engine (snd out) 0)) (executed w ++ [sql])
         (screen w0 ++ head ++
          [Subheader (lit "Generated SQL Query"); Code sql (lit "sql")] ++
          result_events (fst out) ++
          [Markdown (lit "---"); Markdown demo_note]))
  | inr msg =>
      (Raise (Exception msg),
       mk_world (snd reply) (requests w ++ [req])
         (Some (mk_engine store 0)) (executed w) (screen w0 ++ head))
  end.
Proof.
  intros Hk Hc Hq. rewrite (main_key _ _ _ Hk).
  now rewrite (main_with_key_click _ _ _ Hc Hq (api_key_truthy _ _ Hk)).
Qed.

(** *** What the screen, the service log and the statement log gain *)

Lemma shown_execute (sql : str) (w : W) (e : Engine) :
  engine w = Some e ->
  shown (execute sql) w = result_events (fst (read_sql sql (eng_db e))).
Proof.
  intros He. unfold shown. rewrite execute_run with (e := e) by exact He.
  cbn [snd screen]. apply skipn_app_exact.
Qed.

Lemma sent_generate (q sch k : str) (w : W) :
  sent (generate q sch k) w =
  match refusal k with
  | None => [build_request q sch k]
  | Some _ => []
  end.
Proof.
  unfold sent. rewrite generate_run.
  destruct (constructor_error rejects_empty_key k).
  - apply skipn_all_exact.
  - cbn zeta. destruct (fst (service _ _)); cbn [snd requests];
      apply skipn_app_exact.
Qed.

(** ** The claims about the script *)

(** C1 (as amended). When the generation service answers with a text,
    [generate_sql_query] returns the sanitized text: it contains no code
    fence, with or without the language tag, and neither end of it is
    whitespace.  The returned string may be empty.  This is so for every
    key the constructor of the client takes; with a key it refuses there
    is no call, and its error is raised. *)
Theorem generate_sql_query_clean (q sch k : str) (w : W) (content : str) :
  fst (service (build_request q sch k) (svc w)) = inl content ->
  match refusal k with
  | None =>
      exists (r : str) (w' : W),
        generate q sch k w = (Ok r, w') /\
        r = sanitize content /\
        contains fence r = false /\
        contains fence_sql r = false /\
        trimmed r
  | Some msg => generate q sch k w = (Raise (Exception msg), w)
  end.
Proof.
  intros H. destruct (refusal k) as [msg|] eqn:E; rewrite generate_run, E;
    [reflexivity|].
  cbn zeta. rewrite H.
  eexists; eexists; split; [reflexivity|].
  split; [reflexivity|]. split; [apply sanitize_no_fence|].
  split; [apply no_fence_no_fence_sql, sanitize_no_fence|].
  apply sanitize_trimmed.
Qed.

(** C2. Whatever the statement, the [try] statement of [main] returns: an
    engine error is shown as an error message that carries the engine's
    own diagnostic, the number of connections checked out of the engine is
    afterwards what it was before, and a second statement run on the same
    engine returns as well and shows its table when the engine yields
    one. *)
Theorem execute_never_raises (sql next : str) (w : W) (e : Engine) :
  engine w = Some e ->
  exists (w' : W) (e' : Engine),
    execute sql w = (Ok tt, w') /\
    engine w' = Some e' /\
    eng_checked_out e' = eng_checked_out e /\
    (forall msg, fst (read_sql sql (eng_db e)) = inr msg ->
       shown (execute sql) w = [Error (lit "Error executing SQL: " ++ msg)])
    /\
    exists (w'' : W) (e'' : Engine),
      execute next w' = (Ok tt, w'') /\
      engine w'' = Some e'' /\
      eng_checked_out e'' = eng_checked_out e /\
      (forall df, fst (read_sql next (eng_db e')) = inl df ->
         shown (execute next) w' = table_events df).
Proof.
  intros He. rewrite execute_run with (e := e) by exact He.
  eexists; eexists; split; [reflexivity|].
  cbn [engine]. split; [reflexivity|]. split; [reflexivity|]. split.
  - intros msg Hm. rewrite shown_execute with (e := e) by exact He.
    now rewrite Hm.
  - erewrite execute_run; [|reflexivity].
    eexists; eexists; split; [reflexivity|].
    cbn [engine eng_checked_out eng_db].
    split; [reflexivity|]. split; [reflexivity|].
    intros df Hd. erewrite shown_execute; [|reflexivity].
    cbn [eng_db]. now rewrite Hd.
Qed.

(** C3 (as amended). When no key is set in the environment and none is
    typed into the key field, [main] asks for the key, shows a warning and
    returns: no call is made to the generation service, no statement is
    handed to the engine and no engine is created.  The check is made by
    [main].  [generate_sql_query] has none of its own: given the empty key
    it hands it to the constructor of the client, and it fails without a
    call exactly when the constructor refuses that key; a constructor that
    takes it lets the call go out. *)
Theorem missing_key_stops_main (inp : Inputs) (w : W) :
  env_key_set inp = false ->
  key_input inp = [] ->
  fst (script inp w) = Ok tt /\
  shown (script inp) w =
    [ Title (lit "STIM Query Assistant");
      TextInput (lit "Enter OpenAI API Key:");
      Warning (lit "Please enter an OpenAI API key to continue.") ] /\
  sent (script inp) w = [] /\
  attempted (script inp) w = [] /\
  engine (snd (script inp w)) = engine w /\
  (forall (q sch : str) (w0 : W),
     match rejects_empty_key with
     | Some msg =>
         generate q sch [] w0 = (Raise (Exception msg), w0) /\
         sent (generate q sch []) w0 = []
     | None => sent (generate q sch []) w0 = [build_request q sch []]
     end).
Proof.
  intros He Hk.
  assert (Hn : api_key_of inp = None)
    by (unfold api_key_of; now rewrite He, Hk).
  unfold shown, sent, attempted. rewrite (main_no_key _ _ Hn).
  cbn [fst snd show svc requests engine executed screen].
  repeat split.
  - apply skipn_app_exact.
  - apply skipn_all_exact.
  - apply skipn_all_exact.
  - intros q sch w0. pose proof (generate_run q sch [] w0) as Hg.
    pose proof (sent_generate q sch [] w0) as Hs.
    unfold constructor_error in Hg, Hs. cbn [truthy] in Hg, Hs.
    destruct rejects_empty_key; [split|]; assumption.
Qed.

(** C4 (as amended). In a cycle started by the button on a question that
    is not blank: when the generation service answers, [main] returns
    normally whatever the engine does, and an engine error is on the
    screen as an error message with the engine's diagnostic; when the
    generation service fails, the exception leaves [main] uncaught, and no
    statement has been handed to the engine. *)
Theorem cycle_failures (inp : Inputs) (k : str) (w : W) :
  run_clicked inp = true ->
  truthy (strip (question_input inp)) = true ->
  api_key_of inp = Some k ->
  let reply :=
    fst (service (build_request (question_input inp) schema_text k) (svc w))
  in
  (forall content, reply = inl content ->
     fst (script inp w) = Ok tt /\
     forall msg,
       fst (read_sql (sanitize content) store) = inr msg ->
       In (Error (lit "Error executing SQL: " ++ msg)) (shown (script inp) w))
  /\
  (forall msg, reply = inr msg ->
     fst (script inp w) = Raise (Exception msg) /\
     attempted (script inp) w = []).
Proof.
  intros Hc Hq Hk reply. subst reply.
  unfold shown, attempted. rewrite (main_click _ _ _ Hk Hc Hq). cbn zeta.
  cbn [show svc requests engine executed screen]. split.
  - intros content ->. cbn [fst snd screen]. split; [reflexivity|].
    intros msg ->. cbn [result_events error_events].
    rewrite <- !app_assoc, skipn_app_exact.
    rewrite !in_app_iff. right. right. right. left. now left.
  - intros msg ->. cbn [fst snd executed]. split; [reflexivity|].
    apply skipn_all_exact.
Qed.

(** C5. A statement that the engine runs with zero rows gets the line
    "No rows returned." and no error message; a statement that the engine
    rejects gets an error message and not that line; and for no statement
    does the screen gain both. *)
Theorem empty_result_is_not_an_error (sql : str) (w : W) (e : Engine) :
  engine w = Some e ->
  let outcome := fst (read_sql sql (eng_db e)) in
  let evs := shown (execute sql) w in
  (forall df, outcome = inl df -> df_rows df = [] ->
     evs = [ Subheader (lit "Query Results");
             Write (lit "No rows returned.") ]) /\
  (forall msg, outcome = inr msg ->
     evs = [ Error (lit "Error executing SQL: " ++ msg) ]) /\
  ~ (In (Write (lit "No rows returned.")) evs /\ exists m, In (Error m) evs).
Proof.
  intros He outcome evs. subst outcome evs.
  rewrite shown_execute with (e := e) by exact He.
  split; [|split].
  - intros df -> Hr. cbn [result_events]. unfold table_events, df_empty.
    rewrite Hr. now destruct (df_columns df).
  - now intros msg ->.
  - destruct (fst (read_sql sql (eng_db e))) as [df|msg];
      cbn [result_events error_events]; unfold table_events.
    + intros [_ [m Hm]]. destruct (df_empty df).
      * simpl in Hm. intuition discriminate.
      * destruct (0 <? length (numeric_cols df)); simpl in Hm;
          intuition discriminate.
    + intros [Hw _]. simpl in Hw. intuition discriminate.
Qed.

(** C6 (as amended). In a cycle started by the button on a question that
    passes the emptiness test of [main], the script calls
    [client.chat.completions.create] exactly once and hands at most one
    statement to the engine: the sanitized answer when there is one,
    nothing when the call failed.  The script has no retry of its own.
    The client it calls is built without [max_retries], so the retries of
    the library are on, two of them: inside that one call the client of
    [OpenAIClient] sends between one request and one more than its
    [max_retries]. *)
Theorem one_generation_one_execution (inp : Inputs) (k : str) (w : W) :
  run_clicked inp = true ->
  truthy (strip (question_input inp)) = true ->
  api_key_of inp = Some k ->
  sent (script inp) w = [build_request (question_input inp) schema_text k] /\
  map req_max_retries (sent (script inp) w) = [None] /\
  length (attempted (script inp) w) <= 1 /\
  attempted (script inp) w =
    match
      fst (service (build_request (question_input inp) schema_text k) (svc w))
    with
    | inl content => [sanitize content]
    | inr _ => []
    end /\
  OpenAIClient.max_retries
    (build_request (question_input inp) schema_text k) = 2 /\
  (forall (E : Type) (endpoint : Request -> E -> OpenAIClient.http_reply * E)
          (req : Request) (s : E * nat),
     let after := snd (snd (OpenAIClient.create endpoint req s)) in
     snd s + 1 <= after <= snd s + 1 + OpenAIClient.max_retries req).
Proof.
  intros Hc Hq Hk. unfold sent, attempted.
  rewrite (main_click _ _ _ Hk Hc Hq). cbn zeta.
  cbn [show svc requests engine executed screen].
  split; [|split; [|split; [|split; [|split]]]].
  - destruct (fst (service _ _)); cbn [snd requests];
      apply skipn_app_exact.
  - destruct (fst (service _ _)); cbn [snd requests];
      now rewrite skipn_app_exact.
  - destruct (fst (service _ _)); cbn [snd executed];
      rewrite ?skipn_app_exact, ?skipn_all_exact; simpl; lia.
  - destruct (fst (service _ _)); cbn [snd executed];
      now rewrite ?skipn_app_exact, ?skipn_all_exact.
  - reflexivity.
  - intros E endpoint req s. apply create_sends_within_bounds.
Qed.

(** ** Further properties of the script *)

(** X1. A reply that contains no fence comes back with the whitespace at
    its two ends removed and nothing else changed (for a key the
    constructor refuses there is no reply: its error is raised). *)
Theorem generate_returns_stripped_reply
  (q sch k : str) (w : W) (content : str) :
  fst (service (build_request q sch k) (svc w)) = inl content ->
  contains fence content = false ->
  match refusal k with
  | None => fst (generate q sch k w) = Ok (strip content)
  | Some msg => fst (generate q sch k w) = Raise (Exception msg)
  end /\
  exists pre post,
    content = pre ++ strip content ++ post /\
    forallb isspace pre = true /\ forallb isspace post = true.
Proof.
  intros H Hf. split; [|apply strip_blank_split].
  rewrite generate_run. destruct (constructor_error rejects_empty_key k);
    [reflexivity|].
  cbn zeta. rewrite H. cbn [fst]. now rewrite sanitize_fence_free.
Qed.

(** X2. A reply that is one fenced block, with whitespace around it and no
    backtick inside, comes back as the inside of the block, stripped; a
    tag [sql] right after the opening fence is dropped, any other text
    there is kept. *)
Theorem generate_unwraps_fenced_reply
  (q sch k : str) (w : W) (ws1 x ws2 : str) :
  fst (service (build_request q sch k) (svc w))
  = inl (ws1 ++ fence ++ x ++ fence ++ ws2) ->
  forallb isspace ws1 = true ->
  forallb isspace ws2 = true ->
  ~ In backtick x ->
  match refusal k with
  | None =>
      fst (generate q sch k w)
      = Ok (strip (if startswith (lit "sql") x then skipn 3 x else x))
  | Some msg => fst (generate q sch k w) = Raise (Exception msg)
  end.
Proof.
  intros H H1 H2 Hx. rewrite generate_run.
  destruct (constructor_error rejects_empty_key k); [reflexivity|].
  cbn zeta. rewrite H. cbn [fst]. now rewrite sanitize_fenced_block.
Qed.

(** X3. What [generate_sql_query] returns is the reply with code points
    deleted: nothing is added, changed or moved, and the result is never
    longer than the reply. *)
Theorem generate_only_deletes (q sch k : str) (w : W) (content : str) :
  fst (service (build_request q sch k) (svc w)) = inl content ->
  match refusal k with
  | None =>
      exists r,
        fst (generate q sch k w) = Ok r /\
        subseq r content /\ length r <= length content
  | Some msg => fst (generate q sch k w) = Raise (Exception msg)
  end.
Proof.
  intros H. rewrite generate_run.
  destruct (constructor_error rejects_empty_key k); [reflexivity|].
  cbn zeta. rewrite H. cbn [fst].
  exists (sanitize content). split; [reflexivity|].
  split; [apply sanitize_deletes|apply subseq_length, sanitize_deletes].
Qed.

(** X4. The two stages do not reach into each other: generating leaves
    the engine, the statement log and the screen as they were, whether the
    service answers or fails; running a statement makes no call to the
    service and leaves its state alone, whether an engine is bound or
    not. *)
Theorem stages_are_independent :
  (forall (q sch k : str) (w : W),
     engine (snd (generate q sch k w)) = engine w /\
     executed (snd (generate q sch k w)) = executed w /\
     screen (snd (generate q sch k w)) = screen w) /\
  (forall (sql : str) (w : W),
     svc (snd (execute sql w)) = svc w /\
     requests (snd (execute sql w)) = requests w).
Proof.
  split.
  - intros q sch k w. rewrite generate_run.
    destruct (constructor_error rejects_empty_key k); [repeat split|].
    cbn zeta.
    destruct (fst (service _ _)); cbn [snd engine executed screen];
      repeat split.
  - intros sql w. destruct (engine w) as [e|] eqn:He.
    + rewrite execute_run with (e := e) by exact He.
      cbn [snd svc requests]. split; reflexivity.
    + unfold execute_and_show, try_except, bind, with_connect, bind, connect.
      rewrite He. cbn [snd st show svc requests]. split; reflexivity.
Qed.

(** X5. A run of the script with the button at rest shows the page and
    returns: no call to the service and no statement for the engine. *)
Theorem idle_run (inp : Inputs) (k : str) (w : W) :
  api_key_of inp = Some k ->
  run_clicked inp = false ->
  fst (script inp w) = Ok tt /\
  sent (script inp) w = [] /\
  attempted (script inp) w = [] /\
  shown (script inp) w =
    (Title (lit "STIM Query Assistant") ::
     if env_key_set inp then []
     else [TextInput (lit "Enter OpenAI API Key:")]) ++
    [ Markdown instructions;
      TextInput (lit "Ask a question about the catalog:");
      Button (lit "Run Query");
      Markdown (lit "---");
      Markdown demo_note ].
Proof.
  intros Hk Hc. unfold sent, attempted, shown.
  rewrite (main_key _ _ _ Hk), (main_with_key_idle _ _ _ Hc).
  cbn [fst snd show svc requests engine executed screen].
  rewrite <- app_assoc, skipn_app_exact, !skipn_all_exact. repeat split.
Qed.

(** X6. With the button pressed, the question goes to the service exactly
    when one of its code points is not whitespace; a question of
    whitespace only, the empty one included, gets the warning, and nothing
    is generated or run. *)
Theorem question_is_sent_unless_blank (inp : Inputs) (k : str) (w : W) :
  api_key_of inp = Some k ->
  run_clicked inp = true ->
  sent (script inp) w =
    (if forallb isspace (question_input inp) then []
     else [build_request (question_input inp) schema_text k]) /\
  (forallb isspace (question_input inp) = true ->
   fst (script inp w) = Ok tt /\
   attempted (script inp) w = [] /\
   In (Warning (lit "Please enter a question before running the query."))
     (shown (script inp) w)).
Proof.
  intros Hk Hc. pose proof (truthy_strip (question_input inp)) as Ht.
  unfold sent, attempted, shown.
  destruct (forallb isspace (question_input inp)); cbn [negb] in Ht.
  - rewrite (main_key _ _ _ Hk), (main_with_key_blank _ _ _ Hc Ht).
    cbn [fst snd show svc requests engine executed screen].
    rewrite <- app_assoc, skipn_app_exact, !skipn_all_exact.
    split; [reflexivity|]. intros _. repeat split.
    apply in_or_app. right. simpl. tauto.
  - rewrite (main_click _ _ _ Hk Hc Ht). cbn zeta.
    cbn [show svc requests engine executed screen].
    split; [|discriminate].
    destruct (fst (service _ _)); cbn [snd requests];
      apply skipn_app_exact.
Qed.

(** X7. Whatever the button, the question, the service and the engine do,
    a run that has a key ends with an engine bound and no connection
    checked out of it, also when the run ends in an exception. *)
Theorem no_connection_left_open (inp : Inputs) (k : str) (w : W) :
  api_key_of inp = Some k ->
  exists e,
    engine (snd (script inp w)) = Some e /\ eng_checked_out e = 0.
Proof.
  intros Hk. destruct (run_clicked inp) eqn:Hc.
  - destruct (truthy (strip (question_input inp))) eqn:Hq.
    + rewrite (main_click _ _ _ Hk Hc Hq). cbn zeta.
      destruct (fst (service _ _)); cbn [snd engine];
        eexists; split; reflexivity.
    + rewrite (main_key _ _ _ Hk), (main_with_key_blank _ _ _ Hc Hq).
      cbn [snd engine]. eexists; split; reflexivity.
  - rewrite (main_key _ _ _ Hk), (main_with_key_idle _ _ _ Hc).
    cbn [snd engine]. eexists; split; reflexivity.
Qed.

(** X8. Every run builds its demo database anew: the engine of the world
    a run starts in, with whatever an earlier statement did to its tables,
    has no influence on what the run returns, sends, executes and shows,
    and with a key the whole final world is the same. *)
Theorem every_run_starts_fresh (inp : Inputs) (w : W) (o : option Engine) :
  let w0 := mk_world (svc w) (requests w) o (executed w) (screen w) in
  fst (script inp w0) = fst (script inp w) /\
  svc (snd (script inp w0)) = svc (snd (script inp w)) /\
  requests (snd (script inp w0)) = requests (snd (script inp w)) /\
  executed (snd (script inp w0)) = executed (snd (script inp w)) /\
  screen (snd (script inp w0)) = screen (snd (script inp w)) /\
  (forall k, api_key_of inp = Some k -> script inp w0 = script inp w).
Proof.
  intros w0. destruct (api_key_of inp) as [k|] eqn:Hk.
  - assert (E : script inp w0 = script inp w).
    { rewrite !(main_key _ _ _ Hk).
      exact (main_with_key_fresh inp k (show _ w) o). }
    rewrite E. repeat split.
  - rewrite !(main_no_key _ _ Hk).
    cbn [fst snd show svc requests engine executed screen].
    repeat split. discriminate.
Qed.

(** X9. What a full cycle shows.  When the service answers, the
    statement that was generated is on the screen before the outcome of
    running it, table or error alike, and the statement is run on the
    store that [create_demo_db] has just left: the tables without rows,
    unless the library has committed the inserted rows by itself.  When
    the service fails, the page stops after the spinner and the closing
    notes are not shown. *)
Theorem cycle_screen (inp : Inputs) (k : str) (w : W) :
  run_clicked inp = true ->
  truthy (strip (question_input inp)) = true ->
  api_key_of inp = Some k ->
  let header :=
    (Title (lit "STIM Query Assistant") ::
     if env_key_set inp then []
     else [TextInput (lit "Enter OpenAI API Key:")]) ++
    [ Markdown instructions;
      TextInput (lit "Ask a question about the catalog:");
      Button (lit "Run Query");
      Spinner (lit "Generating SQL via OpenAI...") ] in
  shown (script inp) w =
  match
    fst (service (build_request (question_input inp) schema_text k) (svc w))
  with
  | inl content =>
      header ++
      [ Subheader (lit "Generated SQL Query");
        Code (sanitize content) (lit "sql") ] ++
      result_events
        (fst (read_sql (sanitize content)
                (if autocommit then Demo.seeded else empty_db))) ++
      [ Markdown (lit "---"); Markdown demo_note ]
  | inr _ => header
  end.
Proof.
  intros Hc Hq Hk header. subst header. unfold shown.
  rewrite (main_click _ _ _ Hk Hc Hq).
  cbn zeta. cbn [show svc requests engine executed screen].
  destruct (fst (service _ _)); cbn [snd screen];
    rewrite <- !app_assoc, skipn_app_exact; reflexivity.
Qed.

(** X10. A key in the environment wins over the key field: the field is
    not shown, whatever was typed into it is ignored, and the request
    carries the key of the environment. *)
Theorem env_key_wins (inp : Inputs) (k : str) (w : W) :
  env_api_key inp = Some k ->
  truthy k = true ->
  run_clicked inp = true ->
  truthy (strip (question_input inp)) = true ->
  map req_api_key (sent (script inp) w) = [k] /\
  ~ In (TextInput (lit "Enter OpenAI API Key:")) (shown (script inp) w).
Proof.
  intros He Ht Hc Hq.
  assert (Hs : env_key_set inp = true)
    by (unfold env_key_set; now rewrite He).
  assert (Hk : api_key_of inp = Some k)
    by (unfold api_key_of; now rewrite Hs).
  unfold sent, shown.
  rewrite (main_click _ _ _ Hk Hc Hq).
  cbn zeta. cbn [show svc requests engine executed screen]. rewrite Hs.
  destruct (fst (service _ _)) as [content|msg]; cbn [snd requests screen];
    rewrite <- ?app_assoc, !skipn_app_exact; (split; [reflexivity|]);
    intros Hin; simpl in Hin;
    repeat (destruct Hin as [Hin|Hin]; [discriminate|]);
    [|contradiction].
  apply in_app_or in Hin. destruct Hin as [Hin|Hin].
  - destruct (fst (read_sql (sanitize content) store)) as [df|m];
      cbn [result_events error_events] in Hin; unfold table_events in Hin.
    + destruct (df_empty df);
        [|destruct (0 <? length (numeric_cols df))];
        simpl in Hin; intuition discriminate.
    + simpl in Hin. intuition discriminate.
  - simpl in Hin. intuition discriminate.
Qed.

(** X11. For a table with at least one row and one column the screen
    gains the table and, when the table has a column of type int64 or
    float64, a bar chart of exactly those columns; a table without such a
    column gets no chart. *)
Theorem chart_only_for_numbers
  (sql : str) (w : W) (e : Engine) (df : DataFrame) :
  engine w = Some e ->
  fst (read_sql sql (eng_db e)) = inl df ->
  df_empty df = false ->
  shown (execute sql) w =
    Subheader (lit "Query Results") :: Dataframe df ::
    match numeric_cols df with
    | [] => []
    | _ :: _ => [BarChart (numeric_cols df)]
    end /\
  (forall c,
     In c (numeric_cols df) <->
     exists t, In (c, t) (df_columns df) /\ (t = Int64 \/ t = Float64)).
Proof.
  intros He Hr Hd. split.
  - rewrite shown_execute with (e := e) by exact He. rewrite Hr.
    cbn [result_events]. unfold table_events. rewrite Hd.
    now destruct (numeric_cols df).
  - intros c. unfold numeric_cols. rewrite in_map_iff. split.
    + intros ([c' t] & <- & Hin). apply filter_In in Hin.
      destruct Hin as [Hin Hn]. exists t. split; [exact Hin|].
      destruct t; simpl in Hn; auto. discriminate.
    + intros (t & Hin & Ht). exists (c, t). split; [reflexivity|].
      apply filter_In. split; [exact Hin|]. now destruct Ht as [->| ->].
Qed.

End ScriptFacts.
(** ** The prompt *)

(** C8. The prompt is the fixed template around the schema description and
    the question, both verbatim and in this order, and it ends with the
    instruction to return raw SQL without markdown.  Every request that
    [generate_sql_query] sends carries this prompt as its user message and
    temperature zero, and the messages are the same for any two calls with
    the same question and schema, whatever the key, the client, the
    service and the state of the world. *)
Theorem prompt_is_fixed_template (q sch : str) :
  build_prompt q sch = prompt_head ++ sch ++ prompt_mid ++ q ++ prompt_tail /\
  occurs sch (build_prompt q sch) /\
  occurs q (build_prompt q sch) /\
  (exists pre, build_prompt q sch = pre ++ closing_instruction) /\
  (forall (S1 S2 : Type)
          (service1 : Request -> S1 -> (str + str) * S1)
          (service2 : Request -> S2 -> (str + str) * S2)
          (rejects1 rejects2 : option str)
          (k1 k2 : str) (w1 : World S1) (w2 : World S2),
     (forall r,
        In r (sent (generate_sql_query service1 rejects1 q sch k1) w1) ->
        req_messages r =
          [ (lit "system", system_message);
            (lit "user", build_prompt q sch) ] /\
        req_temperature r = 0%Z) /\
     (constructor_error rejects1 k1 = None ->
      constructor_error rejects2 k2 = None ->
      exists r1 r2,
        sent (generate_sql_query service1 rejects1 q sch k1) w1 = [r1] /\
        sent (generate_sql_query service2 rejects2 q sch k2) w2 = [r2] /\
        req_messages r1 =
          [ (lit "system", system_message);
            (lit "user", build_prompt q sch) ] /\
        req_messages r2 = req_messages r1 /\
        req_temperature r1 = 0%Z /\
        req_temperature r2 = 0%Z)).
Proof.
  split; [reflexivity|]. split; [|split; [|split]].
  - exists prompt_head, (prompt_mid ++ q ++ prompt_tail). reflexivity.
  - exists (prompt_head ++ sch ++ prompt_mid), prompt_tail.
    unfold build_prompt. now rewrite <- !app_assoc.
  - exists (prompt_head ++ sch ++ prompt_mid ++ q ++ [10; 10]%N).
    unfold build_prompt. rewrite <- !app_assoc. reflexivity.
  - intros. split.
    + intros r Hin. rewrite sent_generate in Hin.
      destruct (constructor_error rejects1 k1); [contradiction|].
      destruct Hin as [<-|[]]. split; reflexivity.
    + intros H1 H2.
      exists (build_request q sch k1), (build_request q sch k2).
      rewrite !sent_generate, H1, H2. repeat split.
Qed.

(** ** The seeded tables *)

(** The rows of the [INSERT INTO royalties] statement: those of 2022
    belong to the four works 1, 2, 3 and 4, and their totals per work are
    3200.00, 2200.00, 3700.00 and 3000.00. *)
Lemma royalties_2022 :
  let y := lit "2022" in
  Demo.works_with_royalties y Demo.seeded = [1; 2; 3; 4]%Z /\
  length (Demo.works_with_royalties y Demo.seeded) = 4 /\
  length (Demo.total_royalties_per_work y Demo.seeded) = 4 /\
  map fst (Demo.total_royalties_per_work y Demo.seeded) = [1; 2; 3; 4]%Z /\
  (Demo.total_royalties y Demo.seeded 1 == 3200.00)%Q /\
  (Demo.total_royalties y Demo.seeded 2 == 2200.00)%Q /\
  (Demo.total_royalties y Demo.seeded 3 == 3700.00)%Q /\
  (Demo.total_royalties y Demo.seeded 4 == 3000.00)%Q.
Proof. repeat split. Qed.

(** C7. [create_demo_db] inserts its rows and never commits them.  Where
    the library does not commit by itself, the engine it returns holds the
    tables without rows, and the totals of the royalties of 2022 grouped
    by work have no row at all, where four are expected.  Where the
    library commits each statement, the engine holds the inserted rows:
    four works have royalties in 2022, and the totals are 3200.00,
    2200.00, 3700.00 and 3000.00. *)
Theorem inserted_rows_need_a_commit (S : Type) (w : World S) :
  let y := lit "2022" in
  engine (snd (create_demo_db false w)) = Some (mk_engine (served false) 0) /\
  Demo.royalties (served false) = [] /\
  Demo.total_royalties_per_work y (served false) = [] /\
  engine (snd (create_demo_db true w)) = Some (mk_engine (served true) 0) /\
  Demo.royalties (served true) = Demo.seed_royalties /\
  map fst (Demo.total_royalties_per_work y (served true))
  = [1; 2; 3; 4]%Z /\
  (Demo.total_royalties y (served true) 1 == 3200.00)%Q /\
  (Demo.total_royalties y (served true) 2 == 2200.00)%Q /\
  (Demo.total_royalties y (served true) 3 == 3700.00)%Q /\
  (Demo.total_royalties y (served true) 4 == 3000.00)%Q.
Proof. repeat split. Qed.

(** C10. In the seeded database the shares of every work that has rows in
    [work_contributors] add up to exactly 100.00, and every [work_id] of
    [work_contributors] and of [royalties] is the key of a row of
    [works]. *)
Theorem seeded_shares_and_references :
  Forall (fun w => (Demo.share_total Demo.seeded w == 100.00)%Q)
    (map Demo.wc_work_id (Demo.work_contributors Demo.seeded)) /\
  Forall (fun w => Demo.work_exists Demo.seeded w = true)
    (map Demo.wc_work_id (Demo.work_contributors Demo.seeded)) /\
  Forall (fun w => Demo.work_exists Demo.seeded w = true)
    (map Demo.r_work_id (Demo.royalties Demo.seeded)).
Proof. repeat split; repeat constructor. Qed.

Example shares_of_work_3 :
  map Demo.share_percentage
    (filter (fun r => (Demo.wc_work_id r =? 3)%Z)
       (Demo.work_contributors Demo.seeded))
  = [33.33; 33.33; 33.34]%Q.
Proof. reflexivity. Qed.


(** ** More about the prompt and the tables *)

(** X12. Two different texts never give the same prompt, whether they are
    put in as the question under one schema or as the schema under one
    question. *)
Theorem different_texts_different_prompts (t1 t2 : str) :
  t1 <> t2 ->
  (forall sch, build_prompt t1 sch <> build_prompt t2 sch) /\
  (forall q, build_prompt q t1 <> build_prompt q t2).
Proof.
  intros Hne. unfold build_prompt. split.
  - intros sch H. do 3 apply app_inv_head in H.
    apply app_inv_tail in H. contradiction.
  - intros q H. apply app_inv_head in H.
    apply app_inv_tail in H. contradiction.
Qed.

(** X13. The schema text that [main] gives to the model describes what
    [create_demo_db] creates: for each of the four tables, in the order of
    creation, it holds the table's name followed by all its columns with
    their types and key markers, as in the [CREATE TABLE] statement.  The
    foreign keys are not in it; each of them refers to the primary key of
    a table that is created. *)
Theorem schema_text_describes_the_tables :
  Forall (fun t => contains (Demo.table_block t) schema_text = true)
    Demo.ddl /\
  map Demo.tbl_name Demo.ddl
  = [ lit "works"; lit "contributors"; lit "work_contributors";
      lit "royalties" ] /\
  contains (lit "FOREIGN KEY") schema_text = false /\
  Forall
    (fun t =>
       Forall
         (fun fk =>
            exists t',
              In t' Demo.ddl /\
              Demo.tbl_name t' = Demo.fk_table fk /\
              In (Demo.mk_col (Demo.fk_target fk) (lit "INTEGER") true)
                (Demo.tbl_columns t'))
         (Demo.tbl_foreign t))
    Demo.ddl.
Proof.
  split; [|split; [|split]].
  - repeat (constructor; [vm_compute; reflexivity|]). constructor.
  - reflexivity.
  - vm_compute. reflexivity.
  - assert (Hworks :
      exists t', In t' Demo.ddl /\
        Demo.tbl_name t' = lit "works" /\
        In (Demo.mk_col (lit "work_id") (lit "INTEGER") true)
          (Demo.tbl_columns t')).
    { eexists. split; [left; reflexivity|].
      split; [reflexivity|left; reflexivity]. }
    assert (Hcontributors :
      exists t', In t' Demo.ddl /\
        Demo.tbl_name t' = lit "contributors" /\
        In (Demo.mk_col (lit "contributor_id") (lit "INTEGER") true)
          (Demo.tbl_columns t')).
    { eexists. split; [right; left; reflexivity|].
      split; [reflexivity|left; reflexivity]. }
    apply Forall_forall. intros t Ht. unfold Demo.ddl in Ht. simpl in Ht.
    destruct Ht as [<-|[<-|[<-|[<-|[]]]]]; cbn [Demo.tbl_foreign];
      repeat (apply Forall_cons;
              [first [exact Hworks|exact Hcontributors]|]);
      apply Forall_nil.
Qed.

(** ** The script at concrete inputs *)

(** A cycle where the library commits the inserted rows, and the same
    cycle where it does not. *)
Example run_main_committed :
  shown
    (main Mock.service Mock.read_sql Mock.strict true
       (Mock.press Mock.question))
    (Mock.world [inl Mock.fenced_reply])
  = [ Title (lit "STIM Query Assistant");
      Markdown instructions;
      TextInput (lit "Ask a question about the catalog:");
      Button (lit "Run Query");
      Spinner (lit "Generating SQL via OpenAI...");
      Subheader (lit "Generated SQL Query");
      Code (lit "SELECT * FROM works") (lit "sql");
      Subheader (lit "Query Results");
      Dataframe (Mock.works_frame Demo.seed_works);
      BarChart [lit "work_id"; lit "created_year"];
      Markdown (lit "---");
      Markdown demo_note ].
Proof. vm_compute. reflexivity. Qed.

Example run_main_rolled_back :
  shown
    (main Mock.service Mock.read_sql Mock.strict false
       (Mock.press Mock.question))
    (Mock.world [inl Mock.fenced_reply])
  = [ Title (lit "STIM Query Assistant");
      Markdown instructions;
      TextInput (lit "Ask a question about the catalog:");
      Button (lit "Run Query");
      Spinner (lit "Generating SQL via OpenAI...");
      Subheader (lit "Generated SQL Query");
      Code (lit "SELECT * FROM works") (lit "sql");
      Subheader (lit "Query Results");
      Write (lit "No rows returned.");
      Markdown (lit "---");
      Markdown demo_note ].
Proof. vm_compute. reflexivity. Qed.

Lemma generate_sql_query_clean_witness :
  fst (Mock.service
         (build_request Mock.question schema_text (lit "sk-test"))
         (svc (Mock.world [inl Mock.fenced_reply])))
  = inl Mock.fenced_reply /\
  exists r w',
    generate_sql_query Mock.service Mock.strict Mock.question schema_text
      (lit "sk-test") (Mock.world [inl Mock.fenced_reply]) = (Ok r, w') /\
    r = sanitize Mock.fenced_reply /\
    contains fence r = false /\
    contains fence_sql r = false /\
    trimmed r.
Proof.
  split; [reflexivity|].
  apply (generate_sql_query_clean _ Mock.service Mock.strict Mock.question
           schema_text (lit "sk-test") (Mock.world [inl Mock.fenced_reply])
           Mock.fenced_reply).
  reflexivity.
Defined.

(** An answer made of a fence only: the returned string is empty. *)
Lemma generate_sql_query_may_return_empty :
  fst (Mock.service
         (build_request Mock.question schema_text (lit "sk-test"))
         (svc (Mock.world [inl fence])))
  = inl fence /\
  fst (generate_sql_query Mock.service Mock.strict Mock.question schema_text
         (lit "sk-test") (Mock.world [inl fence]))
  = Ok [].
Proof. split; reflexivity. Qed.

Lemma execute_never_raises_witness :
  engine (Mock.ready []) = Some (mk_engine Demo.seeded 0) /\
  exists w' e',
    execute_and_show Mock.read_sql Mock.misspelt (Mock.ready [])
    = (Ok tt, w') /\
    engine w' = Some e' /\
    eng_checked_out e' = 0 /\
    (forall msg,
       fst (Mock.read_sql Mock.misspelt Demo.seeded) = inr msg ->
       shown (execute_and_show Mock.read_sql Mock.misspelt) (Mock.ready [])
       = [Error (lit "Error executing SQL: " ++ msg)]) /\
    exists w'' e'',
      execute_and_show Mock.read_sql Mock.select_works w' = (Ok tt, w'') /\
      engine w'' = Some e'' /\
      eng_checked_out e'' = 0 /\
      (forall df,
         fst (Mock.read_sql Mock.select_works (eng_db e')) = inl df ->
         shown (execute_and_show Mock.read_sql Mock.select_works) w'
         = table_events df).
Proof.
  split; [reflexivity|].
  apply (execute_never_raises _ Mock.read_sql Mock.misspelt
           Mock.select_works (Mock.ready []) (mk_engine Demo.seeded 0)).
  reflexivity.
Defined.

Lemma missing_key_stops_main_witness :
  env_key_set (Mock.press_without_key Mock.question) = false /\
  key_input (Mock.press_without_key Mock.question) = [] /\
  fst (main Mock.service Mock.read_sql Mock.strict false
         (Mock.press_without_key Mock.question)
         (Mock.world [inl Mock.fenced_reply])) = Ok tt /\
  sent (main Mock.service Mock.read_sql Mock.strict false
          (Mock.press_without_key Mock.question))
    (Mock.world [inl Mock.fenced_reply]) = [] /\
  attempted (main Mock.service Mock.read_sql Mock.strict false
               (Mock.press_without_key Mock.question))
    (Mock.world [inl Mock.fenced_reply]) = [] /\
  generate_sql_query Mock.service Mock.strict Mock.question schema_text []
    (Mock.world [inl Mock.fenced_reply])
  = (Raise (Exception Mock.missing_key_message),
     Mock.world [inl Mock.fenced_reply]).
Proof.
  split; [reflexivity|]. split; [reflexivity|].
  destruct (missing_key_stops_main _ Mock.service Mock.read_sql Mock.strict
              false (Mock.press_without_key Mock.question)
              (Mock.world [inl Mock.fenced_reply]) eq_refl eq_refl)
    as (H1 & _ & H3 & H4 & _ & H6).
  exact (conj H1 (conj H3 (conj H4
           (proj1 (H6 Mock.question schema_text
                     (Mock.world [inl Mock.fenced_reply])))))).
Defined.

(** With a constructor that takes the empty key, [generate_sql_query]
    called without credentials sends a request: the endpoint receives it
    and answers that the key is wrong. *)
Lemma generate_sql_query_calls_service_without_key :
  truthy (@nil codepoint) = false /\
  sent (generate_sql_query (OpenAIClient.create Mock.endpoint) None
          Mock.question schema_text [])
    (Mock.online [Mock.unauthorized])
  = [build_request Mock.question schema_text []] /\
  snd (svc (snd (generate_sql_query (OpenAIClient.create Mock.endpoint) None
                   Mock.question schema_text []
                   (Mock.online [Mock.unauthorized])))) = 1 /\
  fst (generate_sql_query (OpenAIClient.create Mock.endpoint) None
         Mock.question schema_text [] (Mock.online [Mock.unauthorized]))
  = Raise (Exception (lit "Error code: 401 - Incorrect API key provided")).
Proof. repeat split. Qed.

Lemma cycle_failures_witness :
  run_clicked (Mock.press Mock.question) = true /\
  truthy (strip (question_input (Mock.press Mock.question))) = true /\
  api_key_of (Mock.press Mock.question) = Some (lit "sk-test") /\
  fst (main Mock.service Mock.read_sql Mock.strict false
         (Mock.press Mock.question)
         (Mock.world [inl Mock.misspelt])) = Ok tt /\
  In (Error (lit "Error executing SQL: (sqlite3.OperationalError) syntax error"))
    (shown (main Mock.service Mock.read_sql Mock.strict false
              (Mock.press Mock.question))
       (Mock.world [inl Mock.misspelt])).
Proof.
  split; [reflexivity|]. split; [reflexivity|]. split; [reflexivity|].
  destruct (cycle_failures _ Mock.service Mock.read_sql Mock.strict false
              (Mock.press Mock.question) (lit "sk-test")
              (Mock.world [inl Mock.misspelt]) eq_refl eq_refl eq_refl)
    as [H _].
  destruct (H Mock.misspelt eq_refl) as [H1 H2].
  split; [exact H1|].
  exact (H2 (lit "(sqlite3.OperationalError) syntax error") eq_refl).
Defined.

(** A failure of the generation service leaves [main] as an exception. *)
Lemma generation_failure_escapes_main :
  fst (main Mock.service Mock.read_sql Mock.strict false
         (Mock.press Mock.question)
         (Mock.world [inr Mock.timeout_message]))
  = Raise (Exception Mock.timeout_message).
Proof. reflexivity. Qed.

Lemma empty_result_is_not_an_error_witness :
  engine (Mock.ready []) = Some (mk_engine Demo.seeded 0) /\
  fst (Mock.read_sql Mock.select_nothing Demo.seeded)
  = inl (Mock.works_frame []) /\
  shown (execute_and_show Mock.read_sql Mock.select_nothing) (Mock.ready [])
  = [ Subheader (lit "Query Results"); Write (lit "No rows returned.") ].
Proof.
  split; [reflexivity|]. split; [reflexivity|].
  destruct (empty_result_is_not_an_error _ Mock.read_sql
              Mock.select_nothing (Mock.ready [])
              (mk_engine Demo.seeded 0) eq_refl) as [H _].
  exact (H (Mock.works_frame []) eq_refl eq_refl).
Defined.

Lemma one_generation_one_execution_witness :
  run_clicked (Mock.press Mock.question) = true /\
  truthy (strip (question_input (Mock.press Mock.question))) = true /\
  api_key_of (Mock.press Mock.question) = Some (lit "sk-test") /\
  sent (main Mock.service Mock.read_sql Mock.strict false
          (Mock.press Mock.question))
    (Mock.world [inl Mock.fenced_reply])
  = [build_request Mock.question schema_text (lit "sk-test")] /\
  length (attempted (main Mock.service Mock.read_sql Mock.strict false
                       (Mock.press Mock.question))
            (Mock.world [inl Mock.fenced_reply])) <= 1.
Proof.
  split; [reflexivity|]. split; [reflexivity|]. split; [reflexivity|].
  destruct (one_generation_one_execution _ Mock.service Mock.read_sql
              Mock.strict false
              (Mock.press Mock.question) (lit "sk-test")
              (Mock.world [inl Mock.fenced_reply]) eq_refl eq_refl eq_refl)
    as (H1 & _ & H2 & _).
  exact (conj H1 H2).
Defined.

(** One press of the button, and three requests at the endpoint: the
    client sends the request again after each of the two answers that ask
    it to slow down, inside the one call the script makes. *)
Lemma one_press_three_requests :
  run_clicked (Mock.press Mock.question) = true /\
  truthy (strip (question_input (Mock.press Mock.question))) = true /\
  fst (main (OpenAIClient.create Mock.endpoint) Mock.read_sql Mock.strict
         false (Mock.press Mock.question)
         (Mock.online Mock.busy_then_fine)) = Ok tt /\
  length (sent (main (OpenAIClient.create Mock.endpoint) Mock.read_sql
                  Mock.strict false (Mock.press Mock.question))
            (Mock.online Mock.busy_then_fine)) = 1 /\
  snd (svc (snd (main (OpenAIClient.create Mock.endpoint) Mock.read_sql
                   Mock.strict false (Mock.press Mock.question)
                   (Mock.online Mock.busy_then_fine)))) = 3.
Proof. repeat split. Qed.

(** ** The further properties at concrete inputs *)

Lemma generate_returns_stripped_reply_witness :
  fst (Mock.service
         (build_request Mock.question schema_text (lit "sk-test"))
         (svc (Mock.world [inl Mock.plain_reply])))
  = inl Mock.plain_reply /\
  contains fence Mock.plain_reply = false /\
  fst (generate_sql_query Mock.service Mock.strict Mock.question schema_text
         (lit "sk-test") (Mock.world [inl Mock.plain_reply]))
  = Ok (lit "SELECT title FROM works;").
Proof.
  split; [reflexivity|]. split; [reflexivity|].
  exact (proj1 (generate_returns_stripped_reply _ Mock.service Mock.strict
                  Mock.question schema_text (lit "sk-test")
                  (Mock.world [inl Mock.plain_reply]) Mock.plain_reply
                  eq_refl eq_refl)).
Defined.

Lemma generate_unwraps_fenced_reply_witness :
  Mock.tagged_reply
  = [] ++ fence ++ lit "sql
SELECT title FROM works;
" ++ fence ++ lit "
" /\
  fst (generate_sql_query Mock.service Mock.strict Mock.question schema_text
         (lit "sk-test") (Mock.world [inl Mock.tagged_reply]))
  = Ok (lit "SELECT title FROM works;").
Proof.
  split; [reflexivity|].
  apply (generate_unwraps_fenced_reply _ Mock.service Mock.strict
           Mock.question schema_text (lit "sk-test")
           (Mock.world [inl Mock.tagged_reply])
           [] (lit "sql
SELECT title FROM works;
") (lit "
")); try reflexivity.
  intros H. vm_compute in H.
  repeat (destruct H as [H|H]; [discriminate|]). exact H.
Defined.

Lemma generate_only_deletes_witness :
  fst (Mock.service
         (build_request Mock.question schema_text (lit "sk-test"))
         (svc (Mock.world [inl Mock.fenced_reply])))
  = inl Mock.fenced_reply /\
  exists r,
    fst (generate_sql_query Mock.service Mock.strict Mock.question
           schema_text (lit "sk-test")
           (Mock.world [inl Mock.fenced_reply])) = Ok r /\
    subseq r Mock.fenced_reply /\
    length r <= length Mock.fenced_reply.
Proof.
  split; [reflexivity|].
  exact (generate_only_deletes _ Mock.service Mock.strict Mock.question
           schema_text (lit "sk-test") (Mock.world [inl Mock.fenced_reply])
           Mock.fenced_reply eq_refl).
Defined.

Lemma idle_run_witness :
  api_key_of (Mock.idle Mock.question) = Some (lit "sk-test") /\
  run_clicked (Mock.idle Mock.question) = false /\
  fst (main Mock.service Mock.read_sql Mock.strict false
         (Mock.idle Mock.question)
         (Mock.world [inl Mock.fenced_reply])) = Ok tt /\
  sent (main Mock.service Mock.read_sql Mock.strict false
          (Mock.idle Mock.question))
    (Mock.world [inl Mock.fenced_reply]) = [] /\
  attempted (main Mock.service Mock.read_sql Mock.strict false
               (Mock.idle Mock.question))
    (Mock.world [inl Mock.fenced_reply]) = [].
Proof.
  split; [reflexivity|]. split; [reflexivity|].
  destruct (idle_run _ Mock.service Mock.read_sql Mock.strict false
              (Mock.idle Mock.question)
              (lit "sk-test") (Mock.world [inl Mock.fenced_reply])
              eq_refl eq_refl) as (H1 & H2 & H3 & _).
  exact (conj H1 (conj H2 H3)).
Defined.

Lemma question_is_sent_unless_blank_witness :
  api_key_of (Mock.press (lit "   ")) = Some (lit "sk-test") /\
  run_clicked (Mock.press (lit "   ")) = true /\
  sent (main Mock.service Mock.read_sql Mock.strict false
          (Mock.press (lit "   ")))
    (Mock.world [inl Mock.fenced_reply]) = [] /\
  api_key_of (Mock.press Mock.question) = Some (lit "sk-test") /\
  sent (main Mock.service Mock.read_sql Mock.strict false
          (Mock.press Mock.question))
    (Mock.world [inl Mock.fenced_reply])
  = [build_request Mock.question schema_text (lit "sk-test")].
Proof.
  split; [reflexivity|]. split; [reflexivity|]. split; [|split].
  - exact (proj1 (question_is_sent_unless_blank _ Mock.service
                    Mock.read_sql Mock.strict false
                    (Mock.press (lit "   ")) (lit "sk-test")
                    (Mock.world [inl Mock.fenced_reply]) eq_refl eq_refl)).
  - reflexivity.
  - exact (proj1 (question_is_sent_unless_blank _ Mock.service
                    Mock.read_sql Mock.strict false
                    (Mock.press Mock.question)
                    (lit "sk-test")
                    (Mock.world [inl Mock.fenced_reply]) eq_refl eq_refl)).
Defined.

Lemma no_connection_left_open_witness :
  api_key_of (Mock.press Mock.question) = Some (lit "sk-test") /\
  fst (main Mock.service Mock.read_sql Mock.strict false
         (Mock.press Mock.question)
         (Mock.world [inr Mock.timeout_message]))
  = Raise (Exception Mock.timeout_message) /\
  exists e,
    engine (snd (main Mock.service Mock.read_sql Mock.strict false
                   (Mock.press Mock.question)
                   (Mock.world [inr Mock.timeout_message]))) = Some e /\
    eng_checked_out e = 0.
Proof.
  split; [reflexivity|]. split; [reflexivity|].
  exact (no_connection_left_open _ Mock.service Mock.read_sql Mock.strict
           false (Mock.press Mock.question) (lit "sk-test")
           (Mock.world [inr Mock.timeout_message]) eq_refl).
Defined.

Lemma cycle_screen_witness :
  run_clicked (Mock.press Mock.question) = true /\
  truthy (strip (question_input (Mock.press Mock.question))) = true /\
  api_key_of (Mock.press Mock.question) = Some (lit "sk-test") /\
  shown (main Mock.service Mock.read_sql Mock.strict false
           (Mock.press Mock.question))
    (Mock.world [inl Mock.fenced_reply])
  = [ Title (lit "STIM Query Assistant");
      Markdown instructions;
      TextInput (lit "Ask a question about the catalog:");
      Button (lit "Run Query");
      Spinner (lit "Generating SQL via OpenAI...");
      Subheader (lit "Generated SQL Query");
      Code (lit "SELECT * FROM works") (lit "sql");
      Subheader (lit "Query Results");
      Write (lit "No rows returned.");
      Markdown (lit "---");
      Markdown demo_note ].
Proof.
  split; [reflexivity|]. split; [reflexivity|]. split; [reflexivity|].
  exact (cycle_screen _ Mock.service Mock.read_sql Mock.strict false
           (Mock.press Mock.question) (lit "sk-test")
           (Mock.world [inl Mock.fenced_reply]) eq_refl eq_refl eq_refl).
Defined.

Lemma env_key_wins_witness :
  env_api_key (Mock.press_two_keys Mock.question) = Some (lit "sk-env") /\
  key_input (Mock.press_two_keys Mock.question) = lit "sk-typed" /\
  map req_api_key
    (sent (main Mock.service Mock.read_sql Mock.strict false
             (Mock.press_two_keys Mock.question))
       (Mock.world [inl Mock.fenced_reply]))
  = [lit "sk-env"].
Proof.
  split; [reflexivity|]. split; [reflexivity|].
  exact (proj1 (env_key_wins _ Mock.service Mock.read_sql Mock.strict false
                  (Mock.press_two_keys Mock.question) (lit "sk-env")
                  (Mock.world [inl Mock.fenced_reply])
                  eq_refl eq_refl eq_refl eq_refl)).
Defined.

Lemma chart_only_for_numbers_witness :
  engine (Mock.ready []) = Some (mk_engine Demo.seeded 0) /\
  fst (Mock.read_titles Mock.select_works Demo.seeded)
  = inl Mock.titles_frame /\
  df_empty Mock.titles_frame = false /\
  shown (execute_and_show Mock.read_titles Mock.select_works)
    (Mock.ready [])
  = [ Subheader (lit "Query Results"); Dataframe Mock.titles_frame ].
Proof.
  split; [reflexivity|]. split; [reflexivity|]. split; [reflexivity|].
  exact (proj1 (chart_only_for_numbers _ Mock.read_titles
                  Mock.select_works (Mock.ready [])
                  (mk_engine Demo.seeded 0) Mock.titles_frame
                  eq_refl eq_refl eq_refl)).
Defined.

Lemma different_texts_different_prompts_witness :
  lit "a" <> lit "b" /\
  build_prompt (lit "a") schema_text <> build_prompt (lit "b") schema_text.
Proof.
  assert (H : lit "a" <> lit "b") by (vm_compute; discriminate).
  split; [exact H|].
  exact (proj1 (different_texts_different_prompts (lit "a") (lit "b") H)
           schema_text).
Defined.
